(** * Mini-batch SGD trainer ([optimize.py]): batch planning, update rules,
      learning-rate schedule and the epoch loop.

    The development follows [SGD.optimize] top to bottom.  Conventions:

    - Python [float] / numpy [float64] values are represented by the rational
      they denote ([Q]), extended with [Inf] and [NaN] where the source can
      produce them (division by a zero [np.float64] warns and yields
      [inf]/[nan], it does not raise).  Rounding error of the binary format is
      not represented.
    - [np.int32] values are integers in [-2^31, 2^31); the conversion
      [astype(np.int32)] and [np.int32] subtraction wrap around.
    - Python configuration values ([learning_schedule], [update_rule]) are
      dynamically typed; they are represented by [pyval].
    - [print] statements and [time.clock()] calls have no effect on the state
      that is modelled and are left out. *)

From Stdlib Require Import ZArith QArith Qround Qabs List String Ascii Bool Lia Lqa.
Import ListNotations.
Open Scope Z_scope.
Set Warnings "-register-all".

(** ** Python values and exceptions *)

Inductive pyval : Type :=
| PyNone
| PyInt (z : Z)
| PyFloat (q : Q)
| PyStr (s : string)
| PyTuple (items : list pyval).

Inductive value_error : Type :=
| InvalidUpdateRule                (* "Invalid update rule!" *)
| InvalidSchedule (sched : pyval)  (* repr(sched) + " is not a valid learning schedule!" *)
| UnpackMismatch                   (* need more than / too many values to unpack *)
| NegativeDimensions.              (* np.empty with a negative dimension *)

Inductive exn : Type :=
| ValueError (why : value_error)
| IndexError
| TypeError
| ZeroDivisionError
| StopIteration.

(** ** numpy numerics *)

Module Numpy.

Inductive float64 : Type :=
| Finite (q : Q)
| Inf
| NaN.

Definition floor (q : Q) : Z := Qfloor q.
Definition ceil (q : Q) : Z := Qceiling q.

(** [abs(n / c - b)] where [c] is an [np.float64]: a zero divisor gives
    [inf] ([nan] for [0/0]); subtracting the finite [b] and taking [abs]
    leaves [inf] / [nan]. *)
Definition abs_error (n : Q) (c : Z) (b : Q) : float64 :=
  if c =? 0 then (if Qeq_bool n 0 then NaN else Inf)
  else Finite (Qabs (n / inject_Z c - b)).

(** [x < y] on floats; every comparison with [nan] is false. *)
Definition lt (x y : float64) : bool :=
  match x, y with
  | Finite a, Finite b => negb (Qle_bool b a)
  | Finite _, Inf => true
  | _, _ => false
  end.

(** [np.round]: round to the nearest integer, halves to the even one. *)
Definition round (q : Q) : Z :=
  let f := Qfloor q in
  match (q - inject_Z f ?= 1 # 2)%Q with
  | Lt => f
  | Gt => f + 1
  | Eq => if Z.even f then f else f + 1
  end.

(** [np.linspace(start, stop, num)] with the default [endpoint=True]:
    [arange(0, num) * step + start], last entry overwritten by [stop];
    no entry when [num <= 0], just [start] when [num = 1]. *)
Definition linspace (start stop : Q) (num : Z) : list Q :=
  if num <=? 0 then []
  else if num =? 1 then [start]
  else
    let step := ((stop - start) / inject_Z (num - 1))%Q in
    let y := map (fun i => (inject_Z (Z.of_nat i) * step + start)%Q)
                 (seq 0 (Z.to_nat num)) in
    removelast y ++ [stop].

Definition int32_min : Z := - 2 ^ 31.
Definition int32_max : Z := 2 ^ 31 - 1.

(** Two's complement wrap-around into the [np.int32] range. *)
Definition wrap32 (z : Z) : Z := (z + 2 ^ 31) mod 2 ^ 32 - 2 ^ 31.

(** [.astype(np.int32)] on an integer-valued float. *)
Definition astype_int32 (z : Z) : Z := wrap32 z.

End Numpy.

(** ** Batch planning (lines 56-80 of [optimize]) *)

Record batch_plan : Type := {
  nb_batches : Z;
  splits : list Z;
  largest_batch_size : Z
}.

(** Lines 59-66: the number of batches. *)
Definition lower_nb_batches (nb_samples batch_size : Z) : Z :=
  Numpy.floor (inject_Z nb_samples / inject_Z batch_size).

Definition upper_nb_batches (nb_samples batch_size : Z) : Z :=
  Numpy.ceil (inject_Z nb_samples / inject_Z batch_size).

(** [abs(flt_nb_samples / candidate - self.batch_size)] *)
Definition deviation (nb_samples batch_size candidate : Z) : Numpy.float64 :=
  Numpy.abs_error (inject_Z nb_samples) candidate (inject_Z batch_size).

Definition choose_nb_batches (nb_samples batch_size : Z) : exn + Z :=
  if batch_size =? 0 then inl ZeroDivisionError
  else
    let lower := lower_nb_batches nb_samples batch_size in
    let upper := upper_nb_batches nb_samples batch_size in
    let lower_error := deviation nb_samples batch_size lower in
    let upper_error := deviation nb_samples batch_size upper in
    inr (if Numpy.lt lower_error upper_error then lower else upper).

(** Lines 69-72: the split boundaries. *)
Definition compute_splits (nb_samples nb_batches : Z) : list Z :=
  map (fun y => Numpy.astype_int32 (Numpy.round y))
      (Numpy.linspace 0 (inject_Z nb_samples) (nb_batches + 1)).

(** [splits[i]]; every index the loops use is within bounds, see
    [split_index_in_range]. *)
Definition split_at (splits : list Z) (i : nat) : Z := nth i splits 0.

(** [splits[i+1] - splits[i]], an [np.int32] subtraction. *)
Definition batch_size_at (splits : list Z) (i : nat) : Z :=
  Numpy.wrap32 (split_at splits (S i) - split_at splits i).

Definition batch_indices (nb_batches : Z) : list nat := seq 0 (Z.to_nat nb_batches).

(** Lines 77-80. *)
Definition compute_largest (splits : list Z) (nb_batches : Z) : Z :=
  fold_left (fun largest i => Z.max (batch_size_at splits i) largest)
            (batch_indices nb_batches) 0.

Definition plan_batches (nb_samples batch_size : Z) : exn + batch_plan :=
  match choose_nb_batches nb_samples batch_size with
  | inl e => inl e
  | inr k =>
      let s := compute_splits nb_samples k in
      inr {| nb_batches := k; splits := s; largest_batch_size := compute_largest s k |}
  end.

(** The per-batch sizes of a plan, in batch order. *)
Definition batch_sizes (p : batch_plan) : list Z :=
  map (batch_size_at (splits p)) (batch_indices (nb_batches p)).

Definition sum_Z (l : list Z) : Z := fold_right Z.add 0 l.


(** Order on deviations: [inf] is above every finite deviation. *)
Definition deviation_le (x y : Numpy.float64) : Prop :=
  match x, y with
  | Numpy.Finite a, Numpy.Finite b => (a <= b)%Q
  | Numpy.Finite _, Numpy.Inf => True
  | Numpy.Inf, Numpy.Inf => True
  | _, _ => False
  end.


(** ** Python-level operations on configuration values *)

(** [v == 'name'] *)
Definition py_eq_str (v : pyval) (name : string) : bool :=
  match v with
  | PyStr s => String.eqb s name
  | _ => false
  end.

(** [v[i]] for a non-negative literal index. *)
Definition py_getitem (v : pyval) (i : nat) : exn + pyval :=
  match v with
  | PyStr s =>
      match String.get i s with
      | Some c => inr (PyStr (String c EmptyString))
      | None => inl IndexError
      end
  | PyTuple items =>
      match nth_error items i with
      | Some x => inr x
      | None => inl IndexError
      end
  | _ => inl TypeError
  end.

(** [v[1:]] *)
Definition py_slice_from1 (v : pyval) : exn + pyval :=
  match v with
  | PyStr s => inr (PyStr (String.substring 1 (String.length s - 1) s))
  | PyTuple items => inr (PyTuple (tl items))
  | _ => inl TypeError
  end.

(** [a, b = v] *)
Definition py_unpack2 (v : pyval) : exn + pyval * pyval :=
  match v with
  | PyTuple [a; b] => inr (a, b)
  | PyStr (String a (String b EmptyString)) =>
      inr (PyStr (String a EmptyString), PyStr (String b EmptyString))
  | PyTuple _ | PyStr _ => inl (ValueError UnpackMismatch)
  | _ => inl TypeError
  end.

(** The numeric value of [v], when it is a number. *)
Definition py_number (v : pyval) : option Q :=
  match v with
  | PyInt z => Some (inject_Z z)
  | PyFloat q => Some q
  | _ => None
  end.

(** [n == v] for a Python int [n]. *)
Definition py_eq_int (n : Z) (v : pyval) : bool :=
  match py_number v with
  | Some q => Qeq_bool (inject_Z n) q
  | None => false
  end.

(** [prev >= current] in Python 2, where [prev] may still be [None]:
    [None] orders below every number. *)
Definition py_ge (prev : option Q) (current : Q) : bool :=
  match prev with
  | None => false
  | Some p => Qle_bool current p
  end.

(** ** The optimizer object *)

Record SGD : Type := {
  batch_size : Z;
  init_rate : Q;
  nb_epochs : Z;
  learning_schedule : pyval;
  update_rule : pyval;
  accuracy_measure : pyval;
  verbose : Z
}.

(** [SGD(batch_size, init_rate, nb_epochs)] with every keyword left at its
    default. *)
Definition SGD_init (batch_size : Z) (init_rate : Q) (nb_epochs : Z) : SGD :=
  {| batch_size := batch_size;
     init_rate := init_rate;
     nb_epochs := nb_epochs;
     learning_schedule := PyStr "fixed";
     update_rule := PyStr "simple";
     accuracy_measure := PyStr "sample";
     verbose := 0 |}.

(** ** Symbolic update expressions and the compiled step *)

Definition tensor : Type := list Q.

Inductive shared : Type :=
| SParam (i : nat)          (* parameters[i] *)
| SPrev (i : nat)           (* prev_updates[i] *)
| SLearningRate.

Inductive texpr : Type :=
| Var (v : shared)
| Grad (i : nat)            (* T.grad(cost, parameters[i]) *)
| Scalar (q : Q)
| Mul (a b : texpr)
| Add (a b : texpr)
| Sub (a b : texpr).

Definition assignment : Type := (shared * texpr)%type.

Inductive tval : Type :=
| Scal (q : Q)
| Tens (t : tensor).

(** Elementwise operation with scalar broadcasting. *)
Definition lift2 (f : Q -> Q -> Q) (x y : tval) : tval :=
  match x, y with
  | Scal a, Scal b => Scal (f a b)
  | Scal a, Tens r => Tens (map (f a) r)
  | Tens l, Scal b => Tens (map (fun a => f a b) l)
  | Tens l, Tens r => Tens (map (fun ab => f (fst ab) (snd ab)) (combine l r))
  end.

Definition as_tensor (v : tval) : tensor :=
  match v with
  | Scal q => [q]
  | Tens t => t
  end.

(** [np.zeros(param_shape)] *)
Definition zeros_like (p : tensor) : tensor := map (fun _ => 0%Q) p.

Definition shared_eqb (a b : shared) : bool :=
  match a, b with
  | SParam i, SParam j => Nat.eqb i j
  | SPrev i, SPrev j => Nat.eqb i j
  | SLearningRate, SLearningRate => true
  | _, _ => false
  end.

(** The expression assigned to [target] by an update list, if any. *)
Fixpoint lookup_update (target : shared) (updates : list assignment) : option texpr :=
  match updates with
  | [] => None
  | (v, e) :: rest => if shared_eqb target v then Some e else lookup_update target rest
  end.

(** Lines 108-112. *)
Definition simple_update (i : nat) : assignment :=
  (SParam i, Sub (Var (SParam i)) (Mul (Var SLearningRate) (Grad i))).

Definition simple_updates (nb_params : nat) : list assignment :=
  map simple_update (seq 0 nb_params).

(** Lines 124-132. *)
Definition cur_update (mtm : Q) (i : nat) : texpr :=
  Add (Mul (Scalar mtm) (Var (SPrev i))) (Mul (Var SLearningRate) (Grad i)).

Definition momentum_updates (mtm : Q) (nb_params : nat) : list assignment :=
  flat_map (fun i => [ (SParam i, Sub (Var (SParam i)) (cur_update mtm i));
                       (SPrev i, cur_update mtm i) ])
           (seq 0 nb_params).

(** Lines 108-134: the update list together with the freshly allocated
    momentum accumulators.  A non-numeric momentum coefficient fails when the
    first product [mtm * prev_updates[i]] is built. *)
Definition build_updates (update_rule : pyval) (parameters : list tensor)
  : exn + list tensor * list assignment :=
  if py_eq_str update_rule "simple" then
    inr ([], simple_updates (List.length parameters))
  else
    match py_getitem update_rule 0 with
    | inl e => inl e
    | inr tag =>
        if py_eq_str tag "momentum" then
          match py_getitem update_rule 1 with
          | inl e => inl e
          | inr mtm =>
              match parameters, py_number mtm with
              | [], _ => inr ([], [])
              | _ :: _, None => inl TypeError
              | _ :: _, Some m =>
                  inr (map zeros_like parameters,
                       momentum_updates m (List.length parameters))
              end
          end
        else inl (ValueError InvalidUpdateRule)
    end.

(** ** Optimizer state *)

Inductive event : Type :=
| Materialized (epoch batch : nat) (size : Z)  (* a batch was copied into the buffer *)
| Stepped (epoch batch : nat)                  (* run_iteration() was invoked *)
| Validated (epoch : nat)                      (* validation accuracy was measured *)
| Decayed (epoch : nat).                       (* learning_rate.set_value(... * decay) *)

Record state : Type := {
  params : list tensor;
  prev_updates : list tensor;
  learning_rate : Q;
  predict_label : bool;       (* has the validation function been compiled? *)
  prev_acc : option Q;
  prev_dec : Z;
  iter_pos : Z;               (* samples already drawn from samples_iterator *)
  trace : list event          (* oldest first *)
}.

Definition log (e : event) (st : state) : state :=
  {| params := params st; prev_updates := prev_updates st;
     learning_rate := learning_rate st; predict_label := predict_label st;
     prev_acc := prev_acc st; prev_dec := prev_dec st;
     iter_pos := iter_pos st; trace := trace st ++ [e] |}.

Definition set_iter_pos (p : Z) (st : state) : state :=
  {| params := params st; prev_updates := prev_updates st;
     learning_rate := learning_rate st; predict_label := predict_label st;
     prev_acc := prev_acc st; prev_dec := prev_dec st;
     iter_pos := p; trace := trace st |}.

Definition set_learning_rate (r : Q) (st : state) : state :=
  {| params := params st; prev_updates := prev_updates st;
     learning_rate := r; predict_label := predict_label st;
     prev_acc := prev_acc st; prev_dec := prev_dec st;
     iter_pos := iter_pos st; trace := trace st |}.

Definition set_predict_label (b : bool) (st : state) : state :=
  {| params := params st; prev_updates := prev_updates st;
     learning_rate := learning_rate st; predict_label := b;
     prev_acc := prev_acc st; prev_dec := prev_dec st;
     iter_pos := iter_pos st; trace := trace st |}.

Definition set_prev_acc (a : option Q) (st : state) : state :=
  {| params := params st; prev_updates := prev_updates st;
     learning_rate := learning_rate st; predict_label := predict_label st;
     prev_acc := a; prev_dec := prev_dec st;
     iter_pos := iter_pos st; trace := trace st |}.

Definition set_prev_dec (d : Z) (st : state) : state :=
  {| params := params st; prev_updates := prev_updates st;
     learning_rate := learning_rate st; predict_label := predict_label st;
     prev_acc := prev_acc st; prev_dec := d;
     iter_pos := iter_pos st; trace := trace st |}.

Definition set_tensors (ps vs : list tensor) (st : state) : state :=
  {| params := ps; prev_updates := vs;
     learning_rate := learning_rate st; predict_label := predict_label st;
     prev_acc := prev_acc st; prev_dec := prev_dec st;
     iter_pos := iter_pos st; trace := trace st |}.

(** State at the point where [run_iteration] has been compiled
    (lines 142-144). *)
Definition initial_state (self : SGD) (parameters accumulators : list tensor) : state :=
  {| params := parameters; prev_updates := accumulators;
     learning_rate := init_rate self; predict_label := false;
     prev_acc := None; prev_dec := 0; iter_pos := 0; trace := [] |}.

(** ** Evaluation of the compiled step *)

Fixpoint eval (st : state) (g : nat -> tensor) (e : texpr) : tval :=
  match e with
  | Var (SParam i) => Tens (nth i (params st) [])
  | Var (SPrev i) => Tens (nth i (prev_updates st) [])
  | Var SLearningRate => Scal (learning_rate st)
  | Grad i => Tens (g i)
  | Scalar q => Scal q
  | Mul a b => lift2 Qmult (eval st g a) (eval st g b)
  | Add a b => lift2 Qplus (eval st g a) (eval st g b)
  | Sub a b => lift2 Qminus (eval st g a) (eval st g b)
  end.

(** The value a shared tensor holds after the step: every right-hand side is
    evaluated in the state before the step. *)
Definition next_value (updates : list assignment) (st : state) (g : nat -> tensor)
    (target : shared) (old : tensor) : tensor :=
  match lookup_update target updates with
  | Some e => as_tensor (eval st g e)
  | None => old
  end.

Definition indexed {A} (l : list A) : list (nat * A) := combine (seq 0 (List.length l)) l.

(** One call of the compiled [run_iteration]; [g i] is the gradient of the
    cost with respect to [parameters[i]] on the batch currently loaded.  No
    update list built by [build_updates] targets the learning rate. *)
Definition run_iteration (updates : list assignment) (g : nat -> tensor) (st : state) : state :=
  set_tensors
    (map (fun ip => next_value updates st g (SParam (fst ip)) (snd ip)) (indexed (params st)))
    (map (fun iv => next_value updates st g (SPrev (fst iv)) (snd iv)) (indexed (prev_updates st)))
    st.

(** ** A state-and-exception monad for the loop *)

Definition M (A : Type) : Type := state -> (exn + A) * state.

Definition ret {A} (x : A) : M A := fun st => (inr x, st).
Definition raise {A} (e : exn) : M A := fun st => (inl e, st).
Definition bind {A B} (m : M A) (k : A -> M B) : M B :=
  fun st =>
    match m st with
    | (inl e, st') => (inl e, st')
    | (inr x, st') => k x st'
    end.
Definition lift {A} (r : exn + A) : M A :=
  match r with
  | inl e => raise e
  | inr x => ret x
  end.
Definition modify (f : state -> state) : M unit := fun st => (inr tt, f st).
Definition gets {A} (f : state -> A) : M A := fun st => (inr (f st), st).

Declare Scope monad_scope.
Delimit Scope monad_scope with monad.
Notation "x <- m ;; k" := (bind m (fun x => k))
  (at level 61, m at next level, right associativity) : monad_scope.
Notation "m ;; k" := (bind m (fun _ => k))
  (at level 61, right associativity) : monad_scope.
Open Scope monad_scope.

(** [for x in l: body(x)], stopping at the first exception. *)
Fixpoint for_each {A} (l : list A) (body : A -> M unit) : M unit :=
  match l with
  | [] => ret tt
  | x :: rest => body x ;; for_each rest body
  end.

(** ** Learning-rate schedule (lines 219-231) *)

(** The decay decision for one epoch.  The two statements [prev_dec == 0] of
    the source are comparisons whose result is discarded: they leave
    [prev_dec] as it is. *)
Definition decay_step (t : nat) (decay delay : pyval) (current_acc : option Q) : M unit :=
  match current_acc with
  | Some acc =>
      prev <- gets prev_acc ;;
      if py_ge prev acc then
        dec <- gets prev_dec ;;
        if py_eq_int dec delay then
          match py_number decay with
          | Some d =>
              modify (fun st => log (Decayed t)
                                    (set_learning_rate (learning_rate st * d)%Q st))
          | None => raise TypeError
          end
        else modify (fun st => set_prev_dec (prev_dec st + 1) st)
      else ret tt
  | None => ret tt
  end ;;
  modify (set_prev_acc current_acc).

(** The schedule evaluations of epochs [1 .. len(accs)], given the accuracy
    measured after each of them. *)
Definition run_schedule (decay delay : pyval) (accs : list (option Q)) : M unit :=
  for_each (combine (seq 1 (List.length accs)) accs)
           (fun ta => decay_step (fst ta) decay delay (snd ta)).

(** State of the scheduler when the first epoch starts. *)
Definition scheduler_start (rate : Q) : state :=
  {| params := []; prev_updates := []; learning_rate := rate;
     predict_label := false; prev_acc := None; prev_dec := 0;
     iter_pos := 0; trace := [] |}.

Definition is_decay (e : event) : bool :=
  match e with
  | Decayed _ => true
  | _ => false
  end.

(** How many times the learning rate was multiplied by the decay factor. *)
Definition decay_count (st : state) : nat := List.length (filter is_decay (trace st)).

(** ** The epoch loop (lines 146-234) *)

Section Trainer.

(** Collaborators: the dataset size [len(samples)]; the gradient of the
    cost on batch [i] of epoch [t] at the given parameter values, one
    tensor per parameter; the validation accuracy measured after epoch [t]
    at the given parameter values. *)
Variable nb_samples : Z.
Variable grad : nat -> nat -> list tensor -> nat -> tensor.
Variable valid_accuracy : nat -> list tensor -> option Q.

(** Lines 159-166: [np.empty([batch_size] + ...)] rejects a negative size;
    [samples_iterator.next()] stops when the dataset is exhausted. *)
Definition materialize (t i : nat) (size : Z) : M unit :=
  fun st =>
    if size <? 0 then (inl (ValueError NegativeDimensions), st)
    else if nb_samples <? iter_pos st + size then
      (inl StopIteration, set_iter_pos nb_samples st)
    else (inr tt, log (Materialized t i size) (set_iter_pos (iter_pos st + size) st)).

(** Lines 154-180, one batch. *)
Definition train_batch (p : batch_plan) (updates : list assignment) (t i : nat) : M unit :=
  materialize t i (batch_size_at (splits p) i) ;;
  modify (fun st => log (Stepped t i) (run_iteration updates (grad t i (params st)) st)).

(** Lines 182-234. *)
Definition learning_schedule_step (self : SGD) (t : nat) : M unit :=
  let sched := learning_schedule self in
  if py_eq_str sched "constant" then ret tt
  else
    tag <- lift (py_getitem sched 0) ;;
    if py_eq_str tag "decay" then
      rest <- lift (py_slice_from1 sched) ;;
      dd <- lift (py_unpack2 rest) ;;
      modify (set_predict_label true) ;;
      current_acc <- gets (fun st => valid_accuracy t (params st)) ;;
      modify (log (Validated t)) ;;
      decay_step t (fst dd) (snd dd) current_acc
    else raise (ValueError (InvalidSchedule sched)).

(** Lines 147-234, one epoch. *)
Definition run_epoch (self : SGD) (p : batch_plan) (updates : list assignment) (t : nat)
  : M unit :=
  modify (set_iter_pos 0) ;;
  for_each (batch_indices (nb_batches p)) (train_batch p updates t) ;;
  learning_schedule_step self t.

(** [range(1, self.nb_epochs + 1)] *)
Definition epochs (self : SGD) : list nat := seq 1 (Z.to_nat (nb_epochs self)).

(** [SGD.optimize]: the result is the exception raised, if any, and the
    state reached. *)
Definition optimize (self : SGD) (parameters : list tensor) : (exn + unit) * state :=
  match plan_batches nb_samples (batch_size self) with
  | inl e => (inl e, initial_state self parameters [])
  | inr p =>
      match build_updates (update_rule self) parameters with
      | inl e => (inl e, initial_state self parameters [])
      | inr (accumulators, updates) =>
          for_each (epochs self) (run_epoch self p updates)
                   (initial_state self parameters accumulators)
      end
  end.

(** The batches of one epoch alone, without the schedule evaluation. *)
Definition run_batches (p : batch_plan) (updates : list assignment) (t : nat) : M unit :=
  modify (set_iter_pos 0) ;;
  for_each (batch_indices (nb_batches p)) (train_batch p updates t).

End Trainer.

(** What the trace says about how far training got. *)
Definition is_step (e : event) : bool :=
  match e with
  | Stepped _ _ => true
  | _ => false
  end.

Definition steps_taken (st : state) : nat := List.length (filter is_step (trace st)).

(** Equality of tensors up to the representation of rationals. *)
Definition tensor_eq (x y : tensor) : Prop := Forall2 Qeq x y.
Definition tensors_eq (xs ys : list tensor) : Prop := Forall2 tensor_eq xs ys.

(** ** Specification-level vocabulary for the batch plan *)

(** The [i]-th boundary in closed form: [i * nb_samples / nb_batches],
    rounded. *)
Definition boundary (nb_samples nb_batches : Z) (i : nat) : Z :=
  Numpy.round (inject_Z (Z.of_nat i) * inject_Z nb_samples / inject_Z nb_batches).


(** [k] is the floor or the ceiling candidate and its deviation from the
    target batch size is no larger than that of either candidate. *)
Definition minimizes_deviation (nb_samples batch_size k : Z) : Prop :=
  (k = lower_nb_batches nb_samples batch_size \/
   k = upper_nb_batches nb_samples batch_size) /\
  deviation_le (deviation nb_samples batch_size k)
               (deviation nb_samples batch_size (lower_nb_batches nb_samples batch_size)) /\
  deviation_le (deviation nb_samples batch_size k)
               (deviation nb_samples batch_size (upper_nb_batches nb_samples batch_size)).

(** Sizes sum to the dataset size, none exceeds [largest_batch_size], and
    none is empty when there are at least as many samples as batches. *)
Definition sizes_well_formed (nb_samples : Z) (p : batch_plan) : Prop :=
  sum_Z (batch_sizes p) = nb_samples /\
  Forall (fun size => size <= largest_batch_size p) (batch_sizes p) /\
  (nb_batches p <= nb_samples -> Forall (fun size => 1 <= size) (batch_sizes p)).

(** ** Specification-level vocabulary for the loop *)

(** A configuration value is an unrecognized identifier for a given pair of
    accepted names when it is not the plain name and its tag [v[0]] can be
    read (a non-empty string or tuple) and differs from the tagged name. *)
Definition unrecognized (plain tagged : string) (v : pyval) : Prop :=
  py_eq_str v plain = false /\
  exists tag, py_getitem v 0 = inr tag /\ py_eq_str tag tagged = false.

Definition unrecognized_update_rule : pyval -> Prop := unrecognized "simple" "momentum".

(** Samples consumed before batch [i]: the sizes of the batches before it. *)
Definition offset (p : batch_plan) (i : nat) : Z :=
  sum_Z (map (batch_size_at (splits p)) (seq 0 i)).

Section Effects.

Variable grad : nat -> nat -> list tensor -> nat -> tensor.

(** The state change of one batch that is materialized and stepped. *)
Definition batch_effect (p : batch_plan) (updates : list assignment) (t : nat)
    (st : state) (i : nat) : state :=
  let size := batch_size_at (splits p) i in
  let st1 := log (Materialized t i size) (set_iter_pos (iter_pos st + size) st) in
  log (Stepped t i) (run_iteration updates (grad t i (params st1)) st1).

(** The state change of all batches of epoch [t]. *)
Definition epoch_effect (p : batch_plan) (updates : list assignment) (t : nat)
    (st : state) : state :=
  fold_left (batch_effect p updates t) (batch_indices (nb_batches p)) (set_iter_pos 0 st).

End Effects.

(** The events of the batches of epoch [t], in order. *)
Definition epoch_events (p : batch_plan) (t : nat) : list event :=
  flat_map (fun i => [Materialized t i (batch_size_at (splits p) i); Stepped t i])
           (batch_indices (nb_batches p)).

(** ** Example inputs *)

Definition half : option Q := Some (1 # 2)%Q.

(** Gradients for a model with two parameters of sizes 2 and 1. *)
Definition example_grad (i : nat) : tensor :=
  match i with
  | O => [4; 5]%Q
  | _ => [6]%Q
  end.

(** A model with one scalar parameter whose gradient is always 1, and a
    validation set on which the accuracy is always 0.5. *)
Definition unit_grad (t i : nat) (ps : list tensor) (j : nat) : tensor := [1%Q].

Definition half_accuracy (t : nat) (ps : list tensor) : option Q := half.


(** [SGD(1, 1, 1, learning_schedule='constant', update_rule=rule)] *)
Definition sgd_with_update_rule (rule : pyval) : SGD :=
  {| batch_size := 1; init_rate := 1; nb_epochs := 1;
     learning_schedule := PyStr "constant"; update_rule := rule;
     accuracy_measure := PyStr "sample"; verbose := 0 |}.

(** [SGD(1, 1, nb_epochs, learning_schedule=('decay', 0.5, delay))] *)
Definition decaying_sgd (nb_epochs delay : Z) : SGD :=
  {| batch_size := 1; init_rate := 1; nb_epochs := nb_epochs;
     learning_schedule := PyTuple [PyStr "decay"; PyFloat (1 # 2); PyInt delay];
     update_rule := PyStr "simple";
     accuracy_measure := PyStr "sample"; verbose := 0 |}.

(** ** Further vocabulary for traces, rates and tensors *)

Definition is_validated (e : event) : bool :=
  match e with
  | Validated _ => true
  | _ => false
  end.

(** How many times the validation accuracy was measured. *)
Definition validations (st : state) : nat :=
  List.length (filter is_validated (trace st)).

(** [q] multiplied with itself [n] times. *)
Fixpoint qpow (q : Q) (n : nat) : Q :=
  match n with
  | O => 1
  | S m => qpow q m * q
  end.

(** Entrywise operations on tensors of equal shape, as [lift2] computes
    them. *)
Definition tensor_scale (c : Q) (x : tensor) : tensor := map (Qmult c) x.

Definition tensor_add (x y : tensor) : tensor :=
  map (fun ab => (fst ab + snd ab)%Q) (combine x y).

Definition tensor_sub (x y : tensor) : tensor :=
  map (fun ab => (fst ab - snd ab)%Q) (combine x y).

(** The shapes of a list of tensors. *)
Definition shapes (ts : list tensor) : list nat := map (@List.length Q) ts.

(** The plan never asks for a negative batch nor for more samples than the
    dataset holds. *)
Definition plan_fits (nb_samples : Z) (p : batch_plan) : Prop :=
  forall i, (i < Z.to_nat (nb_batches p))%nat ->
            0 <= batch_size_at (splits p) i /\ offset p (S i) <= nb_samples.

(** What holds after epoch [t] of a run under a [('decay', decay, delay)]
    schedule whose factor is the number [d]: the batches and validations
    done so far, the rate as a power of the factor, and the range of the
    stall counter. *)
Definition decay_run_invariant (self : SGD) (p : batch_plan) (d : Q) (delay : pyval)
    (t : nat) (st : state) : Prop :=
  steps_taken st = (t * Z.to_nat (nb_batches p))%nat /\
  validations st = t /\
  predict_label st = negb (Nat.eqb t 0) /\
  (learning_rate st == init_rate self * qpow d (decay_count st))%Q /\
  (decay_count st <= t - 1)%nat /\
  (t = 0%nat -> prev_acc st = None) /\
  (forall patience, delay = PyInt patience -> 0 <= patience ->
                    0 <= prev_dec st <= patience).

(** A validation accuracy that improves after every epoch: [t / (t + 1)]. *)
Definition rising_accuracy (t : nat) : Q := Z.of_nat t # Pos.of_succ_nat t.

Definition rising_oracle (t : nat) (ps : list tensor) : option Q :=
  Some (rising_accuracy t).

(** [SGD(1, 1, nb_epochs, learning_schedule=schedule)] *)
Definition sgd_with_schedule (nb_epochs : Z) (schedule : pyval) : SGD :=
  {| batch_size := 1; init_rate := 1; nb_epochs := nb_epochs;
     learning_schedule := schedule; update_rule := PyStr "simple";
     accuracy_measure := PyStr "sample"; verbose := 0 |}.

(** Two parameters of sizes 2 and 1 whose accumulators hold earlier
    updates. *)
Definition momentum_example_state : state :=
  initial_state (SGD_init 1 (1 # 10) 1) [[1; 2]; [3]]%Q [[7; 8]; [9]]%Q.

(** * Properties *)

(** ** Numeric lemmas *)

Lemma wrap32_in_range (z : Z) :
  Numpy.int32_min <= z <= Numpy.int32_max -> Numpy.wrap32 z = z.
Proof.
  unfold Numpy.int32_min, Numpy.int32_max, Numpy.wrap32. intros H.
  rewrite Z.mod_small; lia.
Qed.


Ltac qcompare_to_order :=
  match goal with
  | C : (_ ?= _)%Q = Eq |- _ => apply Qeq_alt in C
  | C : (_ ?= _)%Q = Lt |- _ => apply Qlt_alt in C
  | C : (_ ?= _)%Q = Gt |- _ => apply Qgt_alt in C
  end.

Lemma round_comp (x y : Q) : (x == y)%Q -> Numpy.round x = Numpy.round y.
Proof.
  intros H. unfold Numpy.round.
  rewrite (Qfloor_comp x y H).
  assert (E : (x - inject_Z (Qfloor y) ?= 1 # 2)%Q = (y - inject_Z (Qfloor y) ?= 1 # 2)%Q).
  { apply Qcompare_comp; [rewrite H; reflexivity | reflexivity]. }
  rewrite E. reflexivity.
Qed.

(** Rounding moves a value by at most one half. *)
Lemma round_within_half (q : Q) :
  (inject_Z (Numpy.round q) - (1 # 2) <= q <= inject_Z (Numpy.round q) + (1 # 2))%Q.
Proof.
  unfold Numpy.round.
  pose proof (Qfloor_le q) as Hlo.
  pose proof (Qlt_floor q) as Hhi.
  rewrite inject_Z_plus in Hhi. change (inject_Z 1) with 1%Q in Hhi.
  set (f := Qfloor q) in *.
  destruct (q - inject_Z f ?= 1 # 2)%Q eqn:C.
  - apply Qeq_alt in C.
    destruct (Z.even f); [|rewrite inject_Z_plus; change (inject_Z 1) with 1%Q]; lra.
  - apply Qlt_alt in C. lra.
  - apply Qgt_alt in C. rewrite inject_Z_plus. change (inject_Z 1) with 1%Q. lra.
Qed.

Lemma round_inject_Z (z : Z) : Numpy.round (inject_Z z) = z.
Proof.
  unfold Numpy.round. rewrite Qfloor_Z.
  assert (C : (inject_Z z - inject_Z z ?= 1 # 2)%Q = Lt).
  { apply -> Qlt_alt. lra. }
  rewrite C. reflexivity.
Qed.

Lemma round_mono (x y : Q) : (x <= y)%Q -> Numpy.round x <= Numpy.round y.
Proof.
  intros H. unfold Numpy.round.
  pose proof (Qfloor_resp_le x y H) as Hf.
  pose proof (Qfloor_le x) as Hx. pose proof (Qlt_floor x) as Hx'.
  pose proof (Qfloor_le y) as Hy. pose proof (Qlt_floor y) as Hy'.
  rewrite inject_Z_plus in Hx', Hy'. change (inject_Z 1) with 1%Q in Hx', Hy'.
  set (fx := Qfloor x) in *. set (fy := Qfloor y) in *.
  destruct (Z.eq_dec fx fy) as [E|N].
  - rewrite <- E in *.
    destruct (x - inject_Z fx ?= 1 # 2)%Q eqn:Cx;
      destruct (y - inject_Z fx ?= 1 # 2)%Q eqn:Cy;
      repeat qcompare_to_order;
      destruct (Z.even fx); try lia; exfalso; lra.
  - assert (fx + 1 <= fy) by lia.
    destruct (x - inject_Z fx ?= 1 # 2)%Q; destruct (y - inject_Z fy ?= 1 # 2)%Q;
      destruct (Z.even fx); destruct (Z.even fy); lia.
Qed.

(** Values more than one apart round to different integers. *)
Lemma round_lt (x y : Q) : (x + 1 < y)%Q -> Numpy.round x < Numpy.round y.
Proof.
  intros H.
  pose proof (round_within_half x) as [Hx _].
  pose proof (round_within_half y) as [_ Hy].
  rewrite Zlt_Qlt. lra.
Qed.

(** ** The number of batches *)

Lemma inject_Z_pos (z : Z) : 0 < z -> (0 < inject_Z z)%Q.
Proof. intros H. change 0%Q with (inject_Z 0). now rewrite <- Zlt_Qlt. Qed.

Lemma ideal_nb_batches_bounds (n b : Z) :
  1 <= n -> 1 <= b ->
  (0 < inject_Z n / inject_Z b <= inject_Z n)%Q.
Proof.
  intros Hn Hb.
  pose proof (inject_Z_pos n ltac:(lia)) as Pn.
  pose proof (inject_Z_pos b ltac:(lia)) as Pb.
  split.
  - apply Qlt_shift_div_l; [exact Pb | lra].
  - apply Qle_shift_div_r; [exact Pb |].
    rewrite <- inject_Z_mult, <- Zle_Qle. nia.
Qed.

Lemma upper_nb_batches_bounds (n b : Z) :
  1 <= n -> 1 <= b -> 1 <= upper_nb_batches n b <= n.
Proof.
  intros Hn Hb. unfold upper_nb_batches, Numpy.ceil.
  destruct (ideal_nb_batches_bounds n b Hn Hb) as [Hpos Hle].
  split.
  - pose proof (Qle_ceiling (inject_Z n / inject_Z b)) as H.
    assert (0 < Qceiling (inject_Z n / inject_Z b)); [| lia].
    rewrite Zlt_Qlt. change (inject_Z 0) with 0%Q. lra.
  - rewrite <- (Qceiling_Z n) at 2. now apply Qceiling_resp_le.
Qed.

Lemma lower_nb_batches_bounds (n b : Z) :
  1 <= n -> 1 <= b -> 0 <= lower_nb_batches n b <= upper_nb_batches n b.
Proof.
  intros Hn Hb. unfold lower_nb_batches, upper_nb_batches, Numpy.floor, Numpy.ceil.
  destruct (ideal_nb_batches_bounds n b Hn Hb) as [Hpos Hle].
  split.
  - rewrite <- (Qfloor_Z 0). apply Qfloor_resp_le.
    change (inject_Z 0) with 0%Q. lra.
  - rewrite Zle_Qle. apply Qle_floor_ceiling.
Qed.

Lemma deviation_zero_candidate (n b : Z) :
  1 <= n -> deviation n b 0 = Numpy.Inf.
Proof.
  intros Hn. unfold deviation, Numpy.abs_error. simpl.
  destruct (Qeq_bool (inject_Z n) 0) eqn:E; [| reflexivity].
  apply Qeq_bool_eq in E. unfold Qeq in E. simpl in E. lia.
Qed.

Lemma deviation_finite (n b c : Z) :
  c <> 0 ->
  deviation n b c = Numpy.Finite (Qabs (inject_Z n / inject_Z c - inject_Z b)).
Proof.
  intros Hc. unfold deviation, Numpy.abs_error.
  destruct (Z.eqb_spec c 0); [contradiction | reflexivity].
Qed.

(** The choice made on lines 65-66, as a case distinction. *)
Lemma choose_nb_batches_spec (n b : Z) :
  b <> 0 ->
  choose_nb_batches n b =
  inr (if Numpy.lt (deviation n b (lower_nb_batches n b))
                   (deviation n b (upper_nb_batches n b))
       then lower_nb_batches n b else upper_nb_batches n b).
Proof.
  intros Hb. unfold choose_nb_batches.
  destruct (Z.eqb_spec b 0); [contradiction | reflexivity].
Qed.

Lemma chosen_nb_batches_bounds (n b : Z) :
  1 <= n -> 1 <= b ->
  exists k, choose_nb_batches n b = inr k /\ 1 <= k <= n /\
            (k = lower_nb_batches n b \/ k = upper_nb_batches n b).
Proof.
  intros Hn Hb.
  rewrite choose_nb_batches_spec by lia.
  pose proof (upper_nb_batches_bounds n b Hn Hb) as Hu.
  pose proof (lower_nb_batches_bounds n b Hn Hb) as Hl.
  eexists. split; [reflexivity |].
  destruct (Z.eq_dec (lower_nb_batches n b) 0) as [E | N].
  - rewrite E, deviation_zero_candidate by lia. simpl. split; [lia | now right].
  - destruct (Numpy.lt _ _); split; lia.
Qed.

Lemma lt_false_deviation_le (x y : Numpy.float64) :
  x <> Numpy.NaN -> y <> Numpy.NaN ->
  Numpy.lt x y = false -> deviation_le y x.
Proof.
  destruct x as [a| |], y as [c| |]; simpl; intros Hx Hy H;
    try congruence; try exact I.
  apply negb_false_iff, Qle_bool_iff in H. exact H.
Qed.

Lemma lt_true_deviation_le (x y : Numpy.float64) :
  Numpy.lt x y = true -> deviation_le x y.
Proof.
  destruct x as [a| |], y as [c| |]; simpl; intros H; try congruence; try exact I.
  apply negb_true_iff in H.
  destruct (Qlt_le_dec a c) as [L | L]; [now apply Qlt_le_weak |].
  apply Qle_bool_iff in L. congruence.
Qed.

Lemma deviation_le_refl (x : Numpy.float64) : x <> Numpy.NaN -> deviation_le x x.
Proof. destruct x; simpl; intros H; [apply Qle_refl | exact I | congruence]. Qed.

Lemma deviation_not_nan (n b c : Z) : 1 <= n -> deviation n b c <> Numpy.NaN.
Proof.
  intros Hn. destruct (Z.eq_dec c 0) as [-> | N].
  - rewrite deviation_zero_candidate by assumption. discriminate.
  - rewrite deviation_finite by assumption. discriminate.
Qed.

(** ** The split boundaries *)

Lemma compute_splits_length (n k : Z) :
  0 <= k -> List.length (compute_splits n k) = S (Z.to_nat k).
Proof.
  intros Hk. unfold compute_splits, Numpy.linspace. rewrite length_map.
  destruct (Z.leb_spec (k + 1) 0); [lia |].
  destruct (Z.eqb_spec (k + 1) 1) as [E | N].
  - replace k with 0 by lia. reflexivity.
  - replace (Z.to_nat (k + 1)) with (S (Z.to_nat k)) by lia.
    rewrite seq_S, map_app. simpl.
    rewrite removelast_last, length_app, length_map, length_seq. simpl. lia.
Qed.

(** Every index used by the loops over [range(nb_batches)] is valid,
    whatever the dataset size. *)
Lemma split_index_in_range (n k : Z) (i : nat) :
  In i (batch_indices k) -> (S i < List.length (compute_splits n k))%nat.
Proof.
  intros Hi. apply in_seq in Hi.
  rewrite compute_splits_length by lia. lia.
Qed.

Section Boundaries.

Variables n k : Z.
Hypothesis Hk : 1 <= k <= n.

Lemma boundary_0 : boundary n k 0 = 0.
Proof.
  unfold boundary.
  rewrite (round_comp _ (inject_Z 0)); [apply round_inject_Z |].
  simpl. unfold Qdiv. ring.
Qed.

Lemma boundary_last : boundary n k (Z.to_nat k) = n.
Proof.
  unfold boundary. rewrite Z2Nat.id by lia.
  rewrite (round_comp _ (inject_Z n)); [apply round_inject_Z |].
  pose proof (inject_Z_pos k ltac:(lia)). field. lra.
Qed.

Lemma boundary_range (i : nat) : (i <= (Z.to_nat k))%nat -> 0 <= boundary n k i <= n.
Proof.
  intros Hi. unfold boundary.
  pose proof (inject_Z_pos k ltac:(lia)) as Pk.
  assert (Hi' : 0 <= Z.of_nat i <= k) by lia.
  split.
  - rewrite <- (round_inject_Z 0) at 1. apply round_mono.
    apply Qle_shift_div_l; [exact Pk |].
    rewrite <- !inject_Z_mult, <- Zle_Qle. nia.
  - rewrite <- (round_inject_Z n) at 2. apply round_mono.
    apply Qle_shift_div_r; [exact Pk |].
    rewrite <- !inject_Z_mult, <- Zle_Qle. nia.
Qed.

Lemma boundary_step (i : nat) : (i < (Z.to_nat k))%nat -> boundary n k i < boundary n k (S i).
Proof.
  intros Hi. unfold boundary.
  pose proof (inject_Z_pos k ltac:(lia)) as Pk.
  assert (ES : (inject_Z (Z.of_nat (S i)) == inject_Z (Z.of_nat i) + 1)%Q).
  { rewrite Nat2Z.inj_succ. unfold Z.succ. rewrite inject_Z_plus. reflexivity. }
  destruct (Z.eq_dec n k) as [E | N].
  - (* unit step: every ideal boundary is an integer *)
    rewrite E.
    rewrite (round_comp _ (inject_Z (Z.of_nat i))) by (field; lra).
    rewrite (round_comp (_ / _) (inject_Z (Z.of_nat (S i)))) by (field; lra).
    rewrite !round_inject_Z. lia.
  - (* step above one: the roundings cannot meet *)
    apply round_lt.
    assert (R : (1 < inject_Z n / inject_Z k)%Q).
    { apply Qlt_shift_div_l; [exact Pk |].
      rewrite Qmult_1_l, <- Zlt_Qlt. lia. }
    setoid_replace (inject_Z (Z.of_nat (S i)) * inject_Z n / inject_Z k)%Q
      with (inject_Z (Z.of_nat i) * inject_Z n / inject_Z k + inject_Z n / inject_Z k)%Q
      by (rewrite ES; field; lra).
    lra.
Qed.

Lemma boundary_int32 (i : nat) :
  n < 2 ^ 31 -> (i <= (Z.to_nat k))%nat ->
  Numpy.astype_int32 (boundary n k i) = boundary n k i.
Proof.
  intros Hn Hi. pose proof (boundary_range i Hi).
  apply wrap32_in_range. unfold Numpy.int32_min, Numpy.int32_max. lia.
Qed.

Lemma linspace_unfold :
  Numpy.linspace 0 (inject_Z n) (k + 1) =
  map (fun i => (inject_Z (Z.of_nat i) * ((inject_Z n - 0) / inject_Z (k + 1 - 1)) + 0)%Q)
      (seq 0 (Z.to_nat k))
  ++ [inject_Z n].
Proof.
  unfold Numpy.linspace.
  destruct (Z.leb_spec (k + 1) 0); [lia |].
  destruct (Z.eqb_spec (k + 1) 1); [lia |].
  replace (Z.to_nat (k + 1)) with (S (Z.to_nat k)) by lia.
  rewrite seq_S, map_app. simpl. rewrite removelast_last. reflexivity.
Qed.

(** Below [2^31] samples, the boundaries are the rounded ideal ones. *)
Lemma compute_splits_closed_form :
  n < 2 ^ 31 ->
  compute_splits n k = map (boundary n k) (seq 0 (S (Z.to_nat k))).
Proof.
  intros Hn. unfold compute_splits. rewrite linspace_unfold.
  rewrite map_app, map_map, seq_S, map_app. simpl. f_equal.
  - apply map_ext_in. intros i Hi. apply in_seq in Hi.
    pose proof (inject_Z_pos k ltac:(lia)) as Pk.
    rewrite (round_comp _ (inject_Z (Z.of_nat i) * inject_Z n / inject_Z k)).
    + apply boundary_int32; [exact Hn | lia].
    + replace (k + 1 - 1) with k by lia. field. lra.
  - rewrite round_inject_Z, boundary_last. f_equal.
    apply wrap32_in_range. unfold Numpy.int32_min, Numpy.int32_max. lia.
Qed.

End Boundaries.

(** ** Lists of boundaries *)

Lemma nth_map_seq (f : nat -> Z) (a len i : nat) (d : Z) :
  (i < len)%nat -> nth i (map f (seq a len)) d = f (a + i)%nat.
Proof.
  revert a i. induction len as [| len IH]; intros a i Hi; [lia |].
  destruct i as [| i]; simpl.
  - f_equal. lia.
  - rewrite IH by lia. f_equal. lia.
Qed.



Lemma sum_Z_app (l r : list Z) : sum_Z (l ++ r) = sum_Z l + sum_Z r.
Proof. induction l as [| x l IH]; simpl; [reflexivity | rewrite IH; lia]. Qed.

(** The gaps of consecutive values telescope. *)
Lemma sum_gaps (f : nat -> Z) (m : nat) :
  sum_Z (map (fun i => f (S i) - f i) (seq 0 m)) = f m - f 0%nat.
Proof.
  induction m as [| m IH]; simpl; [lia |].
  change (sum_Z (map (fun i => f (S i) - f i) (seq 0 (S m))) = f (S m) - f 0%nat).
  rewrite seq_S, map_app, sum_Z_app, IH. simpl. lia.
Qed.

Lemma fold_max_ge_init (f : nat -> Z) (l : list nat) (init : Z) :
  init <= fold_left (fun largest i => Z.max (f i) largest) l init.
Proof.
  revert init. induction l as [| x l IH]; intros init; simpl; [lia |].
  specialize (IH (Z.max (f x) init)). lia.
Qed.

Lemma fold_max_ge_each (f : nat -> Z) (l : list nat) (init : Z) (i : nat) :
  In i l -> f i <= fold_left (fun largest i => Z.max (f i) largest) l init.
Proof.
  revert init. induction l as [| x l IH]; intros init Hin; simpl; [contradiction |].
  destruct Hin as [-> | Hin].
  - pose proof (fold_max_ge_init f l (Z.max (f i) init)). lia.
  - now apply IH.
Qed.

Lemma fold_max_attained (f : nat -> Z) (l : list nat) (init : Z) :
  let m := fold_left (fun largest i => Z.max (f i) largest) l init in
  m = init \/ In m (map f l).
Proof.
  revert init. induction l as [| x l IH]; intros init; simpl; [now left |].
  destruct (IH (Z.max (f x) init)) as [E | Hin].
  - rewrite E. destruct (Z.max_spec (f x) init) as [[_ ->] | [_ ->]]; auto.
  - right. now right.
Qed.

(** ** The plan below [2^31] samples *)

Section PlanFacts.

Variables n k : Z.
Hypothesis Hk : 1 <= k <= n.
Hypothesis Hn : n < 2 ^ 31.

Lemma split_at_closed_form (i : nat) :
  (i <= (Z.to_nat k))%nat -> split_at (compute_splits n k) i = boundary n k i.
Proof.
  intros Hi. unfold split_at.
  rewrite compute_splits_closed_form by assumption.
  rewrite nth_map_seq by lia. reflexivity.
Qed.

Lemma batch_size_closed_form (i : nat) :
  (i < (Z.to_nat k))%nat ->
  batch_size_at (compute_splits n k) i = boundary n k (S i) - boundary n k i.
Proof.
  intros Hi. unfold batch_size_at.
  rewrite !split_at_closed_form by lia.
  pose proof (boundary_range n k Hk i ltac:(lia)).
  pose proof (boundary_range n k Hk (S i) ltac:(lia)).
  apply wrap32_in_range. unfold Numpy.int32_min, Numpy.int32_max. lia.
Qed.

Lemma batch_sizes_closed_form :
  map (batch_size_at (compute_splits n k)) (batch_indices k) =
  map (fun i => boundary n k (S i) - boundary n k i) (seq 0 (Z.to_nat k)).
Proof.
  unfold batch_indices. apply map_ext_in.
  intros i Hi. apply in_seq in Hi. apply batch_size_closed_form. lia.
Qed.


Lemma sizes_sum : sum_Z (map (batch_size_at (compute_splits n k)) (batch_indices k)) = n.
Proof.
  rewrite batch_sizes_closed_form, (sum_gaps (boundary n k)).
  rewrite boundary_last, boundary_0 by assumption. lia.
Qed.

Lemma sizes_positive :
  Forall (fun size => 1 <= size) (map (batch_size_at (compute_splits n k)) (batch_indices k)).
Proof.
  rewrite batch_sizes_closed_form. apply Forall_forall.
  intros size Hin. apply in_map_iff in Hin as [i [<- Hi]]. apply in_seq in Hi.
  pose proof (boundary_step n k Hk i ltac:(lia)). lia.
Qed.

Lemma sizes_below_largest :
  Forall (fun size => size <= compute_largest (compute_splits n k) k)
         (map (batch_size_at (compute_splits n k)) (batch_indices k)).
Proof.
  apply Forall_forall. intros size Hin. apply in_map_iff in Hin as [i [<- Hi]].
  unfold compute_largest.
  now apply (fold_max_ge_each (batch_size_at (compute_splits n k))).
Qed.

(** [largest_batch_size] is one of the gaps, hence the maximum gap. *)
Lemma largest_is_a_size :
  In (compute_largest (compute_splits n k) k)
     (map (batch_size_at (compute_splits n k)) (batch_indices k)).
Proof.
  unfold compute_largest.
  destruct (fold_max_attained (batch_size_at (compute_splits n k)) (batch_indices k) 0)
    as [E | Hin]; [| exact Hin].
  exfalso.
  assert (H0 : In 0%nat (batch_indices k)) by (apply in_seq; lia).
  pose proof (fold_max_ge_each (batch_size_at (compute_splits n k)) _ 0 _ H0) as Hge.
  rewrite E in Hge.
  rewrite batch_size_closed_form in Hge by lia.
  pose proof (boundary_step n k Hk 0%nat ltac:(lia)). lia.
Qed.

End PlanFacts.


Lemma plan_batches_spec (n b : Z) :
  1 <= n -> 1 <= b ->
  exists k, choose_nb_batches n b = inr k /\ 1 <= k <= n /\
    plan_batches n b =
    inr {| nb_batches := k; splits := compute_splits n k;
           largest_batch_size := compute_largest (compute_splits n k) k |}.
Proof.
  intros Hn Hb.
  destruct (chosen_nb_batches_bounds n b Hn Hb) as [k [E [Hk _]]].
  exists k. repeat split; try lia; try exact E.
  unfold plan_batches. now rewrite E.
Qed.

Lemma chosen_minimizes_deviation (n b k : Z) :
  1 <= n -> 1 <= b -> choose_nb_batches n b = inr k -> minimizes_deviation n b k.
Proof.
  intros Hn Hb E. rewrite choose_nb_batches_spec in E by lia.
  injection E as <-. unfold minimizes_deviation.
  pose proof (deviation_not_nan n b (lower_nb_batches n b) Hn) as Nl.
  pose proof (deviation_not_nan n b (upper_nb_batches n b) Hn) as Nu.
  destruct (Numpy.lt _ _) eqn:L.
  - split; [now left |]. split.
    + now apply deviation_le_refl.
    + now apply lt_true_deviation_le.
  - split; [now right |]. split.
    + now apply lt_false_deviation_le.
    + now apply deviation_le_refl.
Qed.

(** ** Batch planner: boundaries and choice of the number of batches *)




(** C9: batch_size = 32 and nb_samples = 100 give nb_batches = 3 and the
    boundaries [0, 33, 67, 100]. *)
Theorem plan_100_samples_batch_32 :
  plan_batches 100 32 =
  inr {| nb_batches := 3; splits := [0; 33; 67; 100]; largest_batch_size := 34 |}.
Proof. vm_compute. reflexivity. Qed.

(** ** Batch planner: ties between the two candidates *)





(** ** Batch planner: batch sizes *)

(** C8 (amended): for every 1 <= nb_samples < 2^31 and batch_size >= 1 the
    sizes splits[i+1] - splits[i] sum to nb_samples, none exceeds
    largest_batch_size, which is itself one of the sizes, and no batch is
    empty when nb_samples >= nb_batches. *)
Theorem batch_sizes_partition (nb_samples batch_size : Z) :
  1 <= nb_samples < 2 ^ 31 -> 1 <= batch_size ->
  exists p, plan_batches nb_samples batch_size = inr p /\
            sizes_well_formed nb_samples p /\
            In (largest_batch_size p) (batch_sizes p).
Proof.
  intros Hn Hb.
  destruct (plan_batches_spec nb_samples batch_size ltac:(lia) Hb) as [k [E [Hk P]]].
  eexists. split; [exact P |].
  unfold sizes_well_formed, batch_sizes. simpl. repeat split.
  - apply sizes_sum; lia.
  - apply sizes_below_largest.
  - intros _. apply sizes_positive; lia.
  - apply largest_is_a_size; lia.
Qed.

Lemma batch_sizes_partition_witness :
  exists p, plan_batches 100 32 = inr p /\
            sizes_well_formed 100 p /\
            In (largest_batch_size p) (batch_sizes p).
Proof. apply (batch_sizes_partition 100 32); lia. Defined.

(** Counterexample for C8 as stated, at nb_samples = batch_size = 2^31:
    the only batch has size -2^31, so the sizes do not sum to nb_samples. *)
Lemma batch_sizes_int32_overflow :
  1 <= 2 ^ 31 /\ 1 <= 2 ^ 31 /\
  (forall p, plan_batches (2 ^ 31) (2 ^ 31) = inr p -> batch_sizes p = [- 2 ^ 31]) /\
  ~ (exists p, plan_batches (2 ^ 31) (2 ^ 31) = inr p /\
               sizes_well_formed (2 ^ 31) p).
Proof.
  assert (E : forall p, plan_batches (2 ^ 31) (2 ^ 31) = inr p ->
                        batch_sizes p = [- 2 ^ 31]).
  { intros p P. vm_compute in P. injection P as <-. vm_compute. reflexivity. }
  split; [lia |]. split; [lia |]. split; [exact E |].
  intros [p [P [H _]]]. rewrite (E p P) in H. simpl in H. lia.
Qed.

(** ** Update rules *)

Lemma indexed_as_seq {A} (d : A) (l : list A) :
  indexed l = map (fun i => (i, nth i l d)) (seq 0 (List.length l)).
Proof.
  unfold indexed.
  assert (G : forall a,
    combine (seq a (List.length l)) l =
    map (fun i => (i, nth (i - a) l d)) (seq a (List.length l))).
  { induction l as [| x l IH]; intros a; [reflexivity |].
    simpl. rewrite Nat.sub_diag. f_equal.
    rewrite IH. apply map_ext_in. intros i Hi. apply in_seq in Hi.
    replace (i - a)%nat with (S (i - S a)) by lia. reflexivity. }
  rewrite G. apply map_ext. intros i. now rewrite Nat.sub_0_r.
Qed.

Lemma lookup_simple_updates (n i : nat) :
  (i < n)%nat ->
  lookup_update (SParam i) (simple_updates n) =
  Some (Sub (Var (SParam i)) (Mul (Var SLearningRate) (Grad i))).
Proof.
  unfold simple_updates.
  assert (G : forall len a, (a <= i < a + len)%nat ->
    lookup_update (SParam i) (map simple_update (seq a len)) =
    Some (Sub (Var (SParam i)) (Mul (Var SLearningRate) (Grad i)))).
  { induction len as [| len IH]; intros a Hi; [lia |].
    simpl. destruct (Nat.eqb_spec i a) as [-> | N]; [reflexivity |].
    apply IH. lia. }
  intros Hi. apply G. lia.
Qed.

Lemma lookup_momentum_updates (mtm : Q) (n i : nat) :
  (i < n)%nat ->
  lookup_update (SParam i) (momentum_updates mtm n) =
    Some (Sub (Var (SParam i)) (cur_update mtm i)) /\
  lookup_update (SPrev i) (momentum_updates mtm n) = Some (cur_update mtm i).
Proof.
  unfold momentum_updates.
  assert (G : forall len a, (a <= i < a + len)%nat ->
    lookup_update (SParam i)
      (flat_map (fun i => [ (SParam i, Sub (Var (SParam i)) (cur_update mtm i));
                            (SPrev i, cur_update mtm i) ]) (seq a len)) =
      Some (Sub (Var (SParam i)) (cur_update mtm i)) /\
    lookup_update (SPrev i)
      (flat_map (fun i => [ (SParam i, Sub (Var (SParam i)) (cur_update mtm i));
                            (SPrev i, cur_update mtm i) ]) (seq a len)) =
      Some (cur_update mtm i)).
  { induction len as [| len IH]; intros a Hi; [lia |].
    simpl. destruct (Nat.eqb_spec i a) as [-> | N]; [split; reflexivity |].
    apply IH. lia. }
  intros Hi. apply G. lia.
Qed.

Lemma build_updates_simple (ps : list tensor) :
  build_updates (PyStr "simple") ps = inr ([], simple_updates (List.length ps)).
Proof. reflexivity. Qed.

Lemma build_updates_momentum (mtm : Q) (ps : list tensor) :
  build_updates (PyTuple [PyStr "momentum"; PyFloat mtm]) ps =
  inr (map zeros_like ps, momentum_updates mtm (List.length ps)).
Proof. destruct ps; reflexivity. Qed.

Lemma Forall2_map_seq {A} (R : A -> A -> Prop) (f f' : nat -> A) (a len : nat) :
  (forall i, (a <= i < a + len)%nat -> R (f i) (f' i)) ->
  Forall2 R (map f (seq a len)) (map f' (seq a len)).
Proof.
  revert a. induction len as [| len IH]; intros a H; simpl; constructor.
  - apply H. lia.
  - apply IH. intros i Hi. apply H. lia.
Qed.

Lemma zero_accumulator_term (mtm : Q) (p x : tensor) :
  List.length x = List.length p ->
  tensor_eq
    (map (fun ab => (fst ab + snd ab)%Q) (combine (map (Qmult mtm) (zeros_like p)) x))
    x.
Proof.
  revert x. induction p as [| a p IH]; intros [| b x] H; simpl in *; try discriminate.
  - constructor.
  - constructor; [ring | apply IH; lia].
Qed.

Lemma minus_tensor_eq (p x y : tensor) :
  tensor_eq x y ->
  tensor_eq (map (fun ab => (fst ab - snd ab)%Q) (combine p x))
            (map (fun ab => (fst ab - snd ab)%Q) (combine p y)).
Proof.
  intros H. revert p. induction H as [| a b x y Hab H IH]; intros [| c p]; simpl;
    try constructor.
  - now rewrite Hab.
  - apply IH.
Qed.

Lemma nth_zeros_like (ps : list tensor) (i : nat) :
  nth i (map zeros_like ps) [] = zeros_like (nth i ps []).
Proof. change (@nil Q) with (zeros_like []) at 1. apply map_nth. Qed.

(** The value of [cur_update] on the first step. *)
Lemma first_cur_update (mtm : Q) (g : nat -> tensor) (st : state) (i : nat) :
  prev_updates st = map zeros_like (params st) ->
  List.length (g i) = List.length (nth i (params st) []) ->
  exists v, eval st g (cur_update mtm i) = Tens v /\
            tensor_eq v (map (Qmult (learning_rate st)) (g i)).
Proof.
  intros Hz Hs. simpl. rewrite Hz, nth_zeros_like.
  eexists. split; [reflexivity |].
  apply zero_accumulator_term. now rewrite length_map.
Qed.

(** One momentum step from zero accumulators, in any state. *)
Lemma momentum_step_from_zero_accumulators
    (mtm : Q) (g : nat -> tensor) (st : state) :
  let n := List.length (params st) in
  prev_updates st = map zeros_like (params st) ->
  (forall i, (i < n)%nat -> List.length (g i) = List.length (nth i (params st) [])) ->
  let st_m := run_iteration (momentum_updates mtm n) g st in
  let st_s := run_iteration (simple_updates n) g st in
  tensors_eq (prev_updates st_m)
             (map (fun i => map (Qmult (learning_rate st)) (g i)) (seq 0 n)) /\
  tensors_eq (params st_m) (params st_s).
Proof.
  intros n Hz Hs st_m st_s. unfold st_m, st_s, run_iteration, set_tensors.
  cbn [params prev_updates].
  rewrite (indexed_as_seq ([] : tensor) (params st)),
          (indexed_as_seq ([] : tensor) (prev_updates st)).
  rewrite !map_map. cbn [fst snd].
  replace (List.length (prev_updates st)) with n by (rewrite Hz, length_map; reflexivity).
  fold n. split.
  - apply Forall2_map_seq. intros i Hi. unfold next_value.
    destruct (lookup_momentum_updates mtm n i ltac:(lia)) as [_ ->].
    destruct (first_cur_update mtm g st i Hz (Hs i ltac:(lia))) as [v [-> Hv]].
    exact Hv.
  - apply Forall2_map_seq. intros i Hi. unfold next_value.
    destruct (lookup_momentum_updates mtm n i ltac:(lia)) as [-> _].
    rewrite lookup_simple_updates by lia.
    change (eval st g (Sub (Var (SParam i)) (cur_update mtm i)))
      with (lift2 Qminus (Tens (nth i (params st) [])) (eval st g (cur_update mtm i))).
    destruct (first_cur_update mtm g st i Hz (Hs i ltac:(lia))) as [v [-> Hv]].
    simpl. now apply minus_tensor_eq.
Qed.

(** One step of the simple rule: [p - learning_rate * grad] for every
    parameter, whatever the accumulators hold. *)
Lemma simple_step_closed_form (g : nat -> tensor) (st : state) :
  params (run_iteration (simple_updates (List.length (params st))) g st) =
  map (fun i => map (fun ab => (fst ab - snd ab)%Q)
                    (combine (nth i (params st) [])
                             (map (Qmult (learning_rate st)) (g i))))
      (seq 0 (List.length (params st))).
Proof.
  unfold run_iteration, set_tensors. cbn [params].
  rewrite (indexed_as_seq ([] : tensor) (params st)), map_map. cbn [fst snd].
  apply map_ext_in. intros i Hi. apply in_seq in Hi. unfold next_value.
  rewrite lookup_simple_updates by lia. reflexivity.
Qed.

(** C7: for the update list built for ('momentum', mtm), whose accumulators
    start at zero, the first step stores learning_rate * grad(cost, p) in
    every accumulator and moves every parameter p to
    p - learning_rate * grad(cost, p), which is exactly what the first step
    of the update list built for 'simple' does on the same parameters, cost
    and learning rate. *)
Theorem momentum_first_step_is_simple_step
    (self : SGD) (mtm : Q) (parameters : list tensor) (g : nat -> tensor) :
  (forall i, (i < List.length parameters)%nat ->
             List.length (g i) = List.length (nth i parameters [])) ->
  exists accumulators updates_m updates_s,
    build_updates (PyTuple [PyStr "momentum"; PyFloat mtm]) parameters =
      inr (accumulators, updates_m) /\
    build_updates (PyStr "simple") parameters = inr ([], updates_s) /\
    accumulators = map zeros_like parameters /\
    let st_m := run_iteration updates_m g (initial_state self parameters accumulators) in
    let st_s := run_iteration updates_s g (initial_state self parameters []) in
    let step := fun i => map (Qmult (init_rate self)) (g i) in
    tensors_eq (prev_updates st_m) (map step (seq 0 (List.length parameters))) /\
    tensors_eq (params st_m) (params st_s) /\
    params st_s =
      map (fun i => map (fun ab => (fst ab - snd ab)%Q)
                        (combine (nth i parameters []) (step i)))
          (seq 0 (List.length parameters)).
Proof.
  intros Hs.
  exists (map zeros_like parameters),
         (momentum_updates mtm (List.length parameters)),
         (simple_updates (List.length parameters)).
  split; [apply build_updates_momentum |].
  split; [apply build_updates_simple |].
  split; [reflexivity |].
  destruct (momentum_step_from_zero_accumulators mtm g
              (initial_state self parameters (map zeros_like parameters))
              eq_refl Hs) as [Hv Hp].
  pose proof (simple_step_closed_form g
                (initial_state self parameters (map zeros_like parameters))) as Cz.
  pose proof (simple_step_closed_form g (initial_state self parameters [])) as Ce.
  cbn [params learning_rate initial_state] in Hv, Hp, Cz, Ce.
  split; [exact Hv |]. split; [| exact Ce].
  cbv zeta. rewrite Ce. rewrite <- Cz. exact Hp.
Qed.

Lemma momentum_first_step_is_simple_step_witness :
  exists accumulators updates_m updates_s,
    build_updates (PyTuple [PyStr "momentum"; PyFloat (9 # 10)]) [[1; 2]; [3]]%Q =
      inr (accumulators, updates_m) /\
    build_updates (PyStr "simple") [[1; 2]; [3]]%Q = inr ([], updates_s) /\
    accumulators = map zeros_like [[1; 2]; [3]]%Q /\
    let st_m := run_iteration updates_m example_grad
                  (initial_state (SGD_init 1 (1 # 10) 1) [[1; 2]; [3]]%Q accumulators) in
    let st_s := run_iteration updates_s example_grad
                  (initial_state (SGD_init 1 (1 # 10) 1) [[1; 2]; [3]]%Q []) in
    let step := fun i => map (Qmult (init_rate (SGD_init 1 (1 # 10) 1))) (example_grad i) in
    tensors_eq (prev_updates st_m) (map step (seq 0 (List.length [[1; 2]; [3]]%Q))) /\
    tensors_eq (params st_m) (params st_s) /\
    params st_s =
      map (fun i => map (fun ab => (fst ab - snd ab)%Q)
                        (combine (nth i [[1; 2]; [3]]%Q []) (step i)))
          (seq 0 (List.length [[1; 2]; [3]]%Q)).
Proof.
  apply (momentum_first_step_is_simple_step
           (SGD_init 1 (1 # 10) 1) (9 # 10) [[1; 2]; [3]]%Q example_grad).
  intros [| [| i]] Hi; simpl in *; try reflexivity; lia.
Defined.

(** ** Learning-rate schedule *)

Lemma for_each_app {A} (l r : list A) (body : A -> M unit) (st : state) :
  for_each (l ++ r) body st =
  match for_each l body st with
  | (inl e, st') => (inl e, st')
  | (inr _, st') => for_each r body st'
  end.
Proof.
  revert st. induction l as [| x l IH]; intros st; simpl; [reflexivity |].
  unfold bind. destruct (body x st) as [[e | []] st']; [reflexivity | apply IH].
Qed.

Lemma for_each_single {A} (x : A) (body : A -> M unit) (st : state) :
  for_each [x] body st = body x st.
Proof.
  simpl. unfold bind. destruct (body x st) as [[e | []] st']; reflexivity.
Qed.

(** Under a [('decay', decay, delay)] schedule the epoch boundary compiles
    the validation function if needed, measures the accuracy and runs
    [decay_step] on it. *)
Lemma decay_schedule_step_unfold
    (accuracy : nat -> list tensor -> option Q) (self : SGD) (decay delay : pyval)
    (t : nat) (st : state) :
  learning_schedule self = PyTuple [PyStr "decay"; decay; delay] ->
  learning_schedule_step accuracy self t st =
  decay_step t decay delay (accuracy t (params st))
             (log (Validated t) (set_predict_label true st)).
Proof. intros E. unfold learning_schedule_step. rewrite E. reflexivity. Qed.

(** The whole of [optimize] on one sample with accuracy 0.5 after every
    epoch and delay 2: three epochs leave the rate at 1, the fourth halves
    it. *)
Example optimize_decay_delay_two :
  (exists st, optimize 1 unit_grad half_accuracy (decaying_sgd 3 2) [[5%Q]] = (inr tt, st) /\
              learning_rate st = 1%Q /\ prev_dec st = 2 /\ decay_count st = 0%nat) /\
  (exists st, optimize 1 unit_grad half_accuracy (decaying_sgd 4 2) [[5%Q]] = (inr tt, st) /\
              learning_rate st = (1 * (1 # 2))%Q /\ prev_dec st = 2 /\
              filter is_decay (trace st) = [Decayed 4]).
Proof.
  split; eexists; (split; [vm_compute; reflexivity |]); repeat split.
Qed.

(** After three epochs at accuracy 0.5 with delay 2: no decay yet, the
    counter has reached 2. *)
Lemma three_stalled_epochs (init factor : Q) :
  run_schedule (PyFloat factor) (PyInt 2) [half; half; half] (scheduler_start init) =
  (inr tt,
   {| params := []; prev_updates := []; learning_rate := init;
      predict_label := false; prev_acc := half; prev_dec := 2;
      iter_pos := 0; trace := [] |}).
Proof. reflexivity. Qed.

(** C3 (amended): under a Decay schedule with patience 2 and accuracy 0.5
    after each of the first three epochs, the learning rate is not decayed
    during those three epochs (it still equals init_rate and the stall
    counter has reached 2); the decay is applied during the 4th epoch's
    schedule evaluation when that epoch does not improve on 0.5, after
    which the rate equals init_rate * factor, decayed exactly once. *)
Theorem decay_with_patience_two (init_rate factor a4 : Q) :
  (a4 <= 1 # 2)%Q ->
  (exists st3,
     run_schedule (PyFloat factor) (PyInt 2) [half; half; half]
                  (scheduler_start init_rate) = (inr tt, st3) /\
     learning_rate st3 = init_rate /\ decay_count st3 = 0%nat /\ prev_dec st3 = 2) /\
  (exists st4,
     run_schedule (PyFloat factor) (PyInt 2) [half; half; half; Some a4]
                  (scheduler_start init_rate) = (inr tt, st4) /\
     learning_rate st4 = (init_rate * factor)%Q /\ trace st4 = [Decayed 4] /\
     decay_count st4 = 1%nat).
Proof.
  intros Ha. split.
  - eexists. split; [apply three_stalled_epochs |]. repeat split.
  - unfold run_schedule.
    change (combine (seq 1 (List.length [half; half; half; Some a4]))
                    [half; half; half; Some a4])
      with (combine (seq 1 (List.length [half; half; half])) [half; half; half]
            ++ [(4%nat, Some a4)]).
    rewrite for_each_app.
    change (for_each (combine (seq 1 (List.length [half; half; half])) [half; half; half])
              (fun ta => decay_step (fst ta) (PyFloat factor) (PyInt 2) (snd ta))
              (scheduler_start init_rate))
      with (run_schedule (PyFloat factor) (PyInt 2) [half; half; half]
              (scheduler_start init_rate)).
    rewrite three_stalled_epochs, for_each_single.
    unfold decay_step, bind, gets, modify, py_ge, half. cbn [prev_acc fst snd].
    apply Qle_bool_iff in Ha. rewrite Ha. cbn.
    eexists. split; [reflexivity |]. repeat split.
Qed.

Lemma decay_with_patience_two_witness :
  (exists st3,
     run_schedule (PyFloat (1 # 10)) (PyInt 2) [half; half; half]
                  (scheduler_start 1) = (inr tt, st3) /\
     learning_rate st3 = 1%Q /\ decay_count st3 = 0%nat /\ prev_dec st3 = 2) /\
  (exists st4,
     run_schedule (PyFloat (1 # 10)) (PyInt 2) [half; half; half; Some (1 # 2)%Q]
                  (scheduler_start 1) = (inr tt, st4) /\
     learning_rate st4 = (1 * (1 # 10))%Q /\ trace st4 = [Decayed 4] /\
     decay_count st4 = 1%nat).
Proof.
  apply (decay_with_patience_two 1 (1 # 10) (1 # 2)).
  unfold Qle. simpl. lia.
Defined.

(** Counterexample for C3 as stated: with init_rate = 1, factor = 1/2,
    patience 2 and accuracies 0.5, 0.5, 0.5 the three evaluations apply no
    decay at all and the rate is still 1, not 1 * 1/2. *)
Lemma no_decay_within_three_epochs :
  exists st3,
    run_schedule (PyFloat (1 # 2)) (PyInt 2) [half; half; half] (scheduler_start 1)
      = (inr tt, st3) /\
    decay_count st3 = 0%nat /\ learning_rate st3 = 1%Q /\
    ~ (decay_count st3 = 1%nat /\ (learning_rate st3 == 1 * (1 # 2))%Q).
Proof.
  eexists. split; [apply three_stalled_epochs |].
  split; [reflexivity |]. split; [reflexivity |].
  intros [H _]. discriminate H.
Qed.

(** No schedule evaluation ever lowers the stall counter. *)
Lemma stall_counter_never_decreases
    (t : nat) (decay delay : pyval) (current_acc : option Q) (st : state) :
  prev_dec st <= prev_dec (snd (decay_step t decay delay current_acc st)).
Proof.
  unfold decay_step, bind, gets, modify, raise, ret.
  destruct current_acc as [acc |]; simpl; [| lia].
  destruct (py_ge (prev_acc st) acc); simpl; [| lia].
  destruct (py_eq_int (prev_dec st) delay); simpl.
  - destruct (py_number decay); simpl; lia.
  - lia.
Qed.

(** C4, the code at delay = 1 with factor 1/2: accuracies 0.5, 0.5, 0.5 make
    the third evaluation apply a decay, and accuracies 0.5, 0.5, 0.6 make
    the third evaluation see an improvement; in both cases the counter is 1
    afterwards, not 0, because [prev_dec == 0] compares instead of
    assigning. *)
Theorem stall_counter_is_not_reset :
  run_schedule (PyFloat (1 # 2)) (PyInt 1) [half; half; half] (scheduler_start 1) =
  (inr tt,
   {| params := []; prev_updates := []; learning_rate := 1 * (1 # 2);
      predict_label := false; prev_acc := half; prev_dec := 1;
      iter_pos := 0; trace := [Decayed 3] |}) /\
  run_schedule (PyFloat (1 # 2)) (PyInt 1) [half; half; Some (3 # 5)%Q] (scheduler_start 1) =
  (inr tt,
   {| params := []; prev_updates := []; learning_rate := 1;
      predict_label := false; prev_acc := Some (3 # 5)%Q; prev_dec := 1;
      iter_pos := 0; trace := [] |}).
Proof. split; reflexivity. Qed.

(** ** The epoch loop *)

Section Loop.

Variable nb_samples : Z.
Variable grad : nat -> nat -> list tensor -> nat -> tensor.
Variable valid_accuracy : nat -> list tensor -> option Q.

Lemma train_batch_ok (p : batch_plan) (updates : list assignment) (t i : nat) (st : state) :
  0 <= batch_size_at (splits p) i ->
  iter_pos st + batch_size_at (splits p) i <= nb_samples ->
  train_batch nb_samples grad p updates t i st =
  (inr tt, batch_effect grad p updates t st i).
Proof.
  intros Hsize Hpos. unfold train_batch, bind, materialize, modify.
  destruct (Z.ltb_spec (batch_size_at (splits p) i) 0); [lia |].
  destruct (Z.ltb_spec nb_samples (iter_pos st + batch_size_at (splits p) i)); [lia |].
  reflexivity.
Qed.

Lemma batch_effect_iter_pos p updates t st i :
  iter_pos (batch_effect grad p updates t st i) =
  iter_pos st + batch_size_at (splits p) i.
Proof. reflexivity. Qed.

Lemma batch_effect_trace p updates t st i :
  trace (batch_effect grad p updates t st i) =
  trace st ++ [Materialized t i (batch_size_at (splits p) i); Stepped t i].
Proof. unfold batch_effect. simpl. now rewrite <- app_assoc. Qed.

Lemma batches_effect_iter_pos p updates t st (m : nat) :
  iter_pos (fold_left (batch_effect grad p updates t) (seq 0 m) st) =
  iter_pos st + offset p m.
Proof.
  unfold offset. induction m as [| m IH]; [simpl; lia |].
  rewrite seq_S, fold_left_app, map_app, sum_Z_app.
  cbn [fold_left map sum_Z fold_right Nat.add].
  rewrite batch_effect_iter_pos, IH. lia.
Qed.

Lemma batches_effect_trace p updates t st (m : nat) :
  trace (fold_left (batch_effect grad p updates t) (seq 0 m) st) =
  trace st ++
  flat_map (fun i => [Materialized t i (batch_size_at (splits p) i); Stepped t i])
           (seq 0 m).
Proof.
  induction m as [| m IH]; [simpl; now rewrite app_nil_r |].
  rewrite seq_S, fold_left_app, flat_map_app.
  cbn [fold_left flat_map Nat.add app].
  rewrite batch_effect_trace, IH, <- app_assoc. reflexivity.
Qed.

(** When every batch is non-negative and within the dataset, the batch
    loop of an epoch runs to its end. *)
Lemma batches_run (p : batch_plan) (updates : list assignment) (t : nat) (st : state) :
  iter_pos st = 0 ->
  (forall i, (i < Z.to_nat (nb_batches p))%nat ->
             0 <= batch_size_at (splits p) i /\ offset p (S i) <= nb_samples) ->
  forall m, (m <= Z.to_nat (nb_batches p))%nat ->
  for_each (seq 0 m) (train_batch nb_samples grad p updates t) st =
  (inr tt, fold_left (batch_effect grad p updates t) (seq 0 m) st).
Proof.
  intros H0 Hp. induction m as [| m IH]; intros Hm; [reflexivity |].
  rewrite seq_S, for_each_app, IH by lia. rewrite for_each_single, fold_left_app.
  cbn [fold_left Nat.add]. apply train_batch_ok.
  - apply Hp. lia.
  - rewrite batches_effect_iter_pos, H0.
    destruct (Hp m ltac:(lia)) as [_ Ho]. unfold offset in *.
    rewrite seq_S, map_app, sum_Z_app in Ho.
    cbn [map sum_Z fold_right Nat.add] in Ho. lia.
Qed.

Lemma run_batches_ok (p : batch_plan) (updates : list assignment) (t : nat) (st : state) :
  (forall i, (i < Z.to_nat (nb_batches p))%nat ->
             0 <= batch_size_at (splits p) i /\ offset p (S i) <= nb_samples) ->
  run_batches nb_samples grad p updates t st =
  (inr tt, epoch_effect grad p updates t st).
Proof.
  intros Hp. unfold run_batches, bind, modify, epoch_effect, batch_indices.
  apply batches_run; [reflexivity | exact Hp | lia].
Qed.

Lemma epoch_effect_trace p updates t st :
  trace (epoch_effect grad p updates t st) = trace st ++ epoch_events p t.
Proof.
  unfold epoch_effect, epoch_events, batch_indices.
  rewrite batches_effect_trace. reflexivity.
Qed.

Lemma epoch_events_steps p t :
  List.length (filter is_step (epoch_events p t)) = Z.to_nat (nb_batches p).
Proof.
  unfold epoch_events, batch_indices. generalize 0%nat.
  induction (Z.to_nat (nb_batches p)) as [| m IH]; intros a; simpl; [reflexivity |].
  now rewrite IH.
Qed.

(** With a [('decay', decay, delay)] schedule, an epoch whose batches run
    through ends in [decay_step] on the accuracy measured at the updated
    parameters. *)
Lemma run_epoch_decay (self : SGD) (p : batch_plan) (updates : list assignment)
    (decay delay : pyval) (t : nat) (st : state) :
  learning_schedule self = PyTuple [PyStr "decay"; decay; delay] ->
  (forall i, (i < Z.to_nat (nb_batches p))%nat ->
             0 <= batch_size_at (splits p) i /\ offset p (S i) <= nb_samples) ->
  run_epoch nb_samples grad valid_accuracy self p updates t st =
  decay_step t decay delay
    (valid_accuracy t (params (epoch_effect grad p updates t st)))
    (log (Validated t) (set_predict_label true (epoch_effect grad p updates t st))).
Proof.
  intros E Hp.
  pose proof (run_batches_ok p updates t st Hp) as R.
  unfold run_batches, bind, modify in R.
  unfold run_epoch, bind, modify. rewrite R.
  now apply decay_schedule_step_unfold.
Qed.

(** The batches of an epoch leave the scheduler's variables alone. *)
Lemma epoch_effect_scheduler_fields p updates t st :
  learning_rate (epoch_effect grad p updates t st) = learning_rate st /\
  prev_acc (epoch_effect grad p updates t st) = prev_acc st /\
  prev_dec (epoch_effect grad p updates t st) = prev_dec st.
Proof.
  assert (G : forall l s0,
    learning_rate (fold_left (batch_effect grad p updates t) l s0) = learning_rate s0 /\
    prev_acc (fold_left (batch_effect grad p updates t) l s0) = prev_acc s0 /\
    prev_dec (fold_left (batch_effect grad p updates t) l s0) = prev_dec s0).
  { induction l as [| i l IH]; intros s0; [repeat split |].
    simpl. destruct (IH (batch_effect grad p updates t s0 i)) as [-> [-> ->]].
    repeat split. }
  unfold epoch_effect.
  destruct (G (batch_indices (nb_batches p)) (set_iter_pos 0 st)) as [-> [-> ->]].
  repeat split.
Qed.



End Loop.

(** ** The plan feeds the sample iterator *)

Lemma plan_empty_dataset (b : Z) :
  1 <= b ->
  plan_batches 0 b = inr {| nb_batches := 0; splits := [0]; largest_batch_size := 0 |}.
Proof.
  intros Hb. unfold plan_batches. rewrite choose_nb_batches_spec by lia.
  assert (El : lower_nb_batches 0 b = 0).
  { unfold lower_nb_batches, Numpy.floor.
    rewrite (Qfloor_comp _ (inject_Z 0)); [apply Qfloor_Z |].
    pose proof (inject_Z_pos b ltac:(lia)). field. lra. }
  assert (Eu : upper_nb_batches 0 b = 0).
  { unfold upper_nb_batches, Numpy.ceil.
    rewrite (Qceiling_comp _ (inject_Z 0)); [apply Qceiling_Z |].
    pose proof (inject_Z_pos b ltac:(lia)). field. lra. }
  rewrite El, Eu. reflexivity.
Qed.

Lemma offset_closed_form (n k : Z) (largest : Z) (i : nat) :
  1 <= k <= n -> n < 2 ^ 31 -> (i <= Z.to_nat k)%nat ->
  offset {| nb_batches := k; splits := compute_splits n k; largest_batch_size := largest |} i
  = boundary n k i.
Proof.
  intros Hk Hn Hi. unfold offset. simpl.
  rewrite (map_ext_in _ (fun j => boundary n k (S j) - boundary n k j)).
  - rewrite (sum_gaps (boundary n k)), boundary_0. lia.
  - intros j Hj. apply in_seq in Hj. apply batch_size_closed_form; lia.
Qed.

(** Below [2^31] samples every batch is non-negative and the batches never
    ask the iterator for more samples than the dataset holds. *)
Lemma plan_feeds_iterator (n b : Z) :
  0 <= n < 2 ^ 31 -> 1 <= b ->
  exists p, plan_batches n b = inr p /\
    forall i, (i < Z.to_nat (nb_batches p))%nat ->
              0 <= batch_size_at (splits p) i /\ offset p (S i) <= n.
Proof.
  intros Hn Hb. destruct (Z.eq_dec n 0) as [-> | N].
  - eexists. split; [now apply plan_empty_dataset |]. simpl. intros i Hi. lia.
  - destruct (plan_batches_spec n b ltac:(lia) Hb) as [k [_ [Hk P]]].
    eexists. split; [exact P |]. simpl. intros i Hi. split.
    + rewrite batch_size_closed_form by lia.
      pose proof (boundary_step n k Hk i Hi). lia.
    + rewrite offset_closed_form by lia.
      apply boundary_range; [exact Hk | lia].
Qed.

Lemma plan_batches_total (n b : Z) :
  b <> 0 -> exists p, plan_batches n b = inr p.
Proof.
  intros Hb. unfold plan_batches. rewrite choose_nb_batches_spec by exact Hb.
  eexists. reflexivity.
Qed.

(** ** Configuration errors *)




(** An update rule that fails to build stops [optimize] before the loop. *)
Lemma build_failure_stops_optimize
    (nb_samples : Z) (grad : nat -> nat -> list tensor -> nat -> tensor)
    (valid_accuracy : nat -> list tensor -> option Q)
    (self : SGD) (parameters : list tensor) (e : exn) :
  batch_size self <> 0 ->
  build_updates (update_rule self) parameters = inl e ->
  optimize nb_samples grad valid_accuracy self parameters =
  (inl e, initial_state self parameters []).
Proof.
  intros Hb Hu. unfold optimize.
  destruct (plan_batches_total nb_samples (batch_size self) Hb) as [p ->].
  now rewrite Hu.
Qed.

(** C6: an update_rule identifier that is neither 'simple' nor a 'momentum'
    variant makes optimize raise ValueError before any batch is
    materialized and before any epoch begins: the trace is empty and the
    parameters are those passed in. *)
Theorem invalid_update_rule_fails_fast
    (nb_samples : Z) (grad : nat -> nat -> list tensor -> nat -> tensor)
    (valid_accuracy : nat -> list tensor -> option Q)
    (self : SGD) (parameters : list tensor) :
  batch_size self <> 0 ->
  unrecognized_update_rule (update_rule self) ->
  exists st,
    optimize nb_samples grad valid_accuracy self parameters =
      (inl (ValueError InvalidUpdateRule), st) /\
    trace st = [] /\ steps_taken st = 0%nat /\ params st = parameters /\
    learning_rate st = init_rate self.
Proof.
  intros Hb [Hs [tag [Ht Hm]]].
  eexists. split.
  - apply build_failure_stops_optimize; [exact Hb |].
    unfold build_updates. now rewrite Hs, Ht, Hm.
  - repeat split.
Qed.

Lemma invalid_update_rule_fails_fast_witness :
  exists st,
    optimize 2 unit_grad half_accuracy (sgd_with_update_rule (PyStr "bogus")) [[5%Q]] =
      (inl (ValueError InvalidUpdateRule), st) /\
    trace st = [] /\ steps_taken st = 0%nat /\ params st = [[5%Q]] /\
    learning_rate st = init_rate (sgd_with_update_rule (PyStr "bogus")).
Proof.
  apply (invalid_update_rule_fails_fast
           2 unit_grad half_accuracy (sgd_with_update_rule (PyStr "bogus")) [[5%Q]]).
  - simpl. lia.
  - split; [reflexivity |]. exists (PyStr "b"). split; reflexivity.
Defined.

(** Values without a readable tag fail just as early, with the exception of
    the failed lookup [update_rule[0]]. *)
Example untagged_update_rules_fail_fast :
  optimize 2 unit_grad half_accuracy (sgd_with_update_rule (PyStr "")) [[5%Q]] =
    (inl IndexError, initial_state (sgd_with_update_rule (PyStr "")) [[5%Q]] []) /\
  optimize 2 unit_grad half_accuracy (sgd_with_update_rule (PyTuple [])) [[5%Q]] =
    (inl IndexError, initial_state (sgd_with_update_rule (PyTuple [])) [[5%Q]] []) /\
  optimize 2 unit_grad half_accuracy (sgd_with_update_rule PyNone) [[5%Q]] =
    (inl TypeError, initial_state (sgd_with_update_rule PyNone) [[5%Q]] []).
Proof. repeat split. Qed.



(** * Further properties of the code *)

(** ** Batch planner: shape of the plan for any dataset size *)

(** The floor and ceiling candidates, as integer inequalities. *)
Lemma candidates_enclose_ratio (n b : Z) :
  1 <= b ->
  lower_nb_batches n b * b <= n < (lower_nb_batches n b + 1) * b /\
  (upper_nb_batches n b - 1) * b < n <= upper_nb_batches n b * b.
Proof.
  intros Hb. unfold lower_nb_batches, upper_nb_batches, Numpy.floor, Numpy.ceil.
  pose proof (inject_Z_pos b ltac:(lia)) as Pb.
  set (x := (inject_Z n / inject_Z b)%Q).
  assert (Ex : (x * inject_Z b == inject_Z n)%Q) by (unfold x; field; lra).
  pose proof (Qfloor_le x) as F1. pose proof (Qlt_floor x) as F2.
  pose proof (Qle_ceiling x) as C1. pose proof (Qceiling_lt x) as C2.
  repeat split.
  - rewrite Zle_Qle, inject_Z_mult, <- Ex. apply Qmult_le_compat_r; lra.
  - rewrite Zlt_Qlt, inject_Z_mult, <- Ex. apply Qmult_lt_compat_r; lra.
  - rewrite Zlt_Qlt, inject_Z_mult, <- Ex. apply Qmult_lt_compat_r; lra.
  - rewrite Zle_Qle, inject_Z_mult, <- Ex. apply Qmult_le_compat_r; lra.
Qed.


(** ** Batch planner: datasets smaller than one batch *)

(** X2: a dataset smaller than the target batch size (1 <= nb_samples <
    batch_size, nb_samples < 2^31) is planned as a single batch holding all
    of it: the floor candidate 0 has an infinite deviation and is never
    taken. *)
Theorem small_dataset_is_one_batch (nb_samples batch_size : Z) :
  1 <= nb_samples < batch_size -> nb_samples < 2 ^ 31 ->
  plan_batches nb_samples batch_size =
  inr {| nb_batches := 1; splits := [0; nb_samples]; largest_batch_size := nb_samples |}.
Proof.
  intros Hn H31.
  destruct (candidates_enclose_ratio nb_samples batch_size ltac:(lia)) as [[L1 L2] [U1 U2]].
  assert (El : lower_nb_batches nb_samples batch_size = 0) by nia.
  assert (Eu : upper_nb_batches nb_samples batch_size = 1) by nia.
  unfold plan_batches. rewrite choose_nb_batches_spec by lia.
  rewrite El, Eu, deviation_zero_candidate by lia. cbn [Numpy.lt].
  assert (Es : compute_splits nb_samples 1 = [0; nb_samples]).
  { rewrite compute_splits_closed_form by lia.
    change (seq 0 (S (Z.to_nat 1))) with [0%nat; 1%nat]. cbn [map].
    rewrite boundary_0.
    change 1%nat with (Z.to_nat 1) at 1. rewrite boundary_last by lia. reflexivity. }
  cbv zeta. rewrite Es. do 2 f_equal.
  unfold compute_largest, batch_indices, batch_size_at, split_at. simpl.
  rewrite Z.sub_0_r, wrap32_in_range by (unfold Numpy.int32_min, Numpy.int32_max; lia).
  lia.
Qed.

(** ** Batch planner: batch size dividing the dataset size *)

Lemma map_constant {A B} (b : B) (l : list A) :
  map (fun _ => b) l = repeat b (List.length l).
Proof. induction l as [| x l IH]; simpl; [reflexivity | now rewrite IH]. Qed.

(** X3: when nb_samples is a multiple q * batch_size of the batch size (below
    2^31), the plan has exactly q batches with boundaries 0, batch_size,
    2 * batch_size, ..., every batch has exactly batch_size samples and
    largest_batch_size = batch_size. *)
Theorem exact_division_gives_equal_batches (q batch_size : Z) :
  1 <= q -> 1 <= batch_size -> q * batch_size < 2 ^ 31 ->
  exists p, plan_batches (q * batch_size) batch_size = inr p /\
            nb_batches p = q /\
            splits p = map (fun i => Z.of_nat i * batch_size) (seq 0 (S (Z.to_nat q))) /\
            batch_sizes p = repeat batch_size (Z.to_nat q) /\
            largest_batch_size p = batch_size.
Proof.
  intros Hq Hb H31. set (n := q * batch_size).
  assert (Hn : 1 <= n) by (unfold n; nia).
  destruct (candidates_enclose_ratio n batch_size Hb) as [[L1 L2] [U1 U2]].
  assert (El : lower_nb_batches n batch_size = q) by (unfold n in *; nia).
  assert (Eu : upper_nb_batches n batch_size = q) by (unfold n in *; nia).
  assert (Hk : 1 <= q <= n) by (unfold n; nia).
  assert (EB : forall i, boundary n q i = Z.of_nat i * batch_size).
  { intros i. unfold boundary.
    rewrite (round_comp _ (inject_Z (Z.of_nat i * batch_size))); [apply round_inject_Z |].
    unfold n. rewrite !inject_Z_mult.
    pose proof (inject_Z_pos q ltac:(lia)). field. lra. }
  assert (ES : batch_sizes
                 {| nb_batches := q; splits := compute_splits n q;
                    largest_batch_size := compute_largest (compute_splits n q) q |}
               = repeat batch_size (Z.to_nat q)).
  { unfold batch_sizes. cbn [splits nb_batches].
    rewrite batch_sizes_closed_form by lia.
    rewrite (map_ext _ (fun _ => batch_size)).
    - now rewrite map_constant, length_seq.
    - intros i. rewrite !EB. lia. }
  eexists. split.
  { unfold plan_batches. rewrite choose_nb_batches_spec by lia.
    rewrite El, Eu. destruct (Numpy.lt _ _); reflexivity. }
  split; [reflexivity |]. split.
  { cbn [splits]. rewrite compute_splits_closed_form by lia.
    apply map_ext. exact EB. }
  split; [exact ES |].
  cbn [largest_batch_size].
  pose proof (largest_is_a_size n q Hk H31) as Hin.
  unfold batch_sizes in ES. cbn [splits nb_batches] in ES. rewrite ES in Hin.
  now apply repeat_spec in Hin.
Qed.

Lemma small_dataset_is_one_batch_witness :
  plan_batches 3 10 =
  inr {| nb_batches := 1; splits := [0; 3]; largest_batch_size := 3 |}.
Proof. apply (small_dataset_is_one_batch 3 10); lia. Defined.

Lemma exact_division_gives_equal_batches_witness :
  exists p, plan_batches (4 * 25) 25 = inr p /\
            nb_batches p = 4 /\
            splits p = map (fun i => Z.of_nat i * 25) (seq 0 (S (Z.to_nat 4))) /\
            batch_sizes p = repeat 25 (Z.to_nat 4) /\
            largest_batch_size p = 25.
Proof. apply (exact_division_gives_equal_batches 4 25); lia. Defined.


(** ** Batch planner: how far batch sizes can differ *)






(** ** Batch planner: how far the average batch size is from the target *)

Lemma deviation_of_positive_candidate (n b c : Z) (bound : Q) :
  1 <= c ->
  ((inject_Z b - bound) * inject_Z c <= inject_Z n <= (inject_Z b + bound) * inject_Z c)%Q ->
  exists d, deviation n b c = Numpy.Finite d /\ (d <= bound)%Q.
Proof.
  intros Hc [H1 H2]. rewrite deviation_finite by lia.
  eexists. split; [reflexivity |].
  pose proof (inject_Z_pos c ltac:(lia)) as Pc.
  apply Qabs_Qle_condition. split.
  - assert (inject_Z b - bound <= inject_Z n / inject_Z c)%Q; [| lra].
    apply Qle_shift_div_l; assumption.
  - assert (inject_Z n / inject_Z c <= inject_Z b + bound)%Q; [| lra].
    apply Qle_shift_div_r; assumption.
Qed.

(** X5: when the dataset holds at least one target batch (1 <= batch_size <=
    nb_samples), the chosen nb_batches is positive and the average batch
    size nb_samples / nb_batches deviates from batch_size by at most
    batch_size / 3. *)
Theorem chosen_deviation_at_most_a_third (nb_samples batch_size : Z) :
  1 <= batch_size <= nb_samples ->
  exists k d, choose_nb_batches nb_samples batch_size = inr k /\
              deviation nb_samples batch_size k = Numpy.Finite d /\
              (3 * d <= inject_Z batch_size)%Q.
Proof.
  intros Hb. set (n := nb_samples). set (b := batch_size).
  destruct (chosen_nb_batches_bounds n b ltac:(unfold n, b; lia) ltac:(unfold b; lia))
    as [k [E [Hk Hc]]].
  pose proof (chosen_minimizes_deviation n b k ltac:(unfold n, b; lia)
                ltac:(unfold b; lia) E) as [_ [Ml Mu]].
  destruct (candidates_enclose_ratio n b ltac:(unfold b; lia)) as [[L1 L2] [U1 U2]].
  set (l := lower_nb_batches n b) in *. set (u := upper_nb_batches n b) in *.
  assert (Hl : 1 <= l) by (unfold n, b in *; nia).
  assert (Hu : l <= u <= l + 1) by (unfold n, b in *; nia).
  exists k.
  assert (Hcase : 3 * n <= 4 * b * l \/ 2 * b * u <= 3 * n) by (unfold n, b in *; nia).
  assert (Fk : exists d, deviation n b k = Numpy.Finite d).
  { rewrite deviation_finite by lia. eexists. reflexivity. }
  destruct Fk as [d Ed]. exists d. split; [exact E |]. split; [exact Ed |].
  rewrite Ed in Ml, Mu.
  destruct Hcase as [Hcase | Hcase].
  - destruct (deviation_of_positive_candidate n b l (inject_Z b / 3) Hl) as [dl [El Bl]].
    { split.
      + rewrite Zle_Qle in L1. rewrite inject_Z_mult in L1.
        pose proof (inject_Z_pos b ltac:(unfold b; lia)).
        pose proof (inject_Z_pos l ltac:(lia)).
        assert ((inject_Z b - inject_Z b / 3) * inject_Z l <= inject_Z b * inject_Z l)%Q.
        { apply Qmult_le_compat_r; [| lra].
          assert (0 <= inject_Z b / 3)%Q by (apply Qle_shift_div_l; lra). lra. }
        lra.
      + rewrite Zle_Qle in Hcase. rewrite !inject_Z_mult in Hcase.
        change (inject_Z 3) with 3%Q in Hcase. change (inject_Z 4) with 4%Q in Hcase.
        setoid_replace ((inject_Z b + inject_Z b / 3) * inject_Z l)%Q
          with (4 * inject_Z b * inject_Z l / 3)%Q by field.
        apply Qle_shift_div_l; lra. }
    rewrite El in Ml. simpl in Ml.
    assert (3 * dl <= inject_Z b)%Q.
    { setoid_replace (inject_Z b) with (3 * (inject_Z b / 3))%Q by field. lra. }
    fold b. lra.
  - destruct (deviation_of_positive_candidate n b u (inject_Z b / 3) ltac:(lia)) as [du [Eu Bu]].
    { split.
      + rewrite Zle_Qle in Hcase. rewrite !inject_Z_mult in Hcase.
        change (inject_Z 3) with 3%Q in Hcase. change (inject_Z 2) with 2%Q in Hcase.
        setoid_replace ((inject_Z b - inject_Z b / 3) * inject_Z u)%Q
          with (2 * inject_Z b * inject_Z u / 3)%Q by field.
        apply Qle_shift_div_r; lra.
      + rewrite Zle_Qle in U2. rewrite inject_Z_mult in U2.
        pose proof (inject_Z_pos b ltac:(unfold b; lia)).
        pose proof (inject_Z_pos u ltac:(lia)).
        assert (inject_Z b * inject_Z u <= (inject_Z b + inject_Z b / 3) * inject_Z u)%Q.
        { apply Qmult_le_compat_r; [| lra].
          assert (0 <= inject_Z b / 3)%Q by (apply Qle_shift_div_l; lra). lra. }
        lra. }
    rewrite Eu in Mu. simpl in Mu.
    assert (3 * du <= inject_Z b)%Q.
    { setoid_replace (inject_Z b) with (3 * (inject_Z b / 3))%Q by field. lra. }
    fold b. lra.
Qed.

Lemma chosen_deviation_at_most_a_third_witness :
  exists k d, choose_nb_batches 100 32 = inr k /\
              deviation 100 32 k = Numpy.Finite d /\
              (3 * d <= inject_Z 32)%Q.
Proof. apply (chosen_deviation_at_most_a_third 100 32). lia. Defined.

(** ** The epoch loop as a whole *)

Lemma filter_epoch_events (f : event -> bool) (p : batch_plan) (t : nat) :
  (forall i size, f (Materialized t i size) = false) ->
  (forall i, f (Stepped t i) = false) ->
  filter f (epoch_events p t) = [].
Proof.
  intros Hm Hs. unfold epoch_events. generalize (batch_indices (nb_batches p)).
  induction l as [| i l IH]; simpl; [reflexivity |].
  now rewrite Hm, Hs.
Qed.

Section WholeLoop.

Variable nb_samples : Z.
Variable grad : nat -> nat -> list tensor -> nat -> tensor.
Variable valid_accuracy : nat -> list tensor -> option Q.

(** A loop invariant over the epochs: [I t] holds after epoch [t]. *)
Lemma epochs_invariant (I : nat -> state -> Prop) (body : nat -> M unit) :
  (forall t st, I t st -> exists st', body (S t) st = (inr tt, st') /\ I (S t) st') ->
  forall m a st, I a st ->
  exists st', for_each (seq (S a) m) body st = (inr tt, st') /\ I (a + m)%nat st'.
Proof.
  intros Hstep. induction m as [| m IH]; intros a st Ha.
  - exists st. split; [reflexivity |]. now rewrite Nat.add_0_r.
  - destruct (Hstep a st Ha) as [st1 [E1 H1]].
    destruct (IH (S a) st1 H1) as [st2 [E2 H2]].
    exists st2. split.
    + simpl. unfold bind. rewrite E1. exact E2.
    + now replace (a + S m)%nat with (S a + m)%nat by lia.
Qed.

Lemma epoch_effect_other_fields p updates t st :
  predict_label (epoch_effect grad p updates t st) = predict_label st /\
  List.length (params (epoch_effect grad p updates t st)) = List.length (params st).
Proof.
  assert (G : forall l s0,
    predict_label (fold_left (batch_effect grad p updates t) l s0) = predict_label s0 /\
    List.length (params (fold_left (batch_effect grad p updates t) l s0)) =
      List.length (params s0)).
  { induction l as [| i l IH]; intros s0; [split; reflexivity |].
    simpl. destruct (IH (batch_effect grad p updates t s0 i)) as [-> ->].
    split; [reflexivity |].
    unfold batch_effect, run_iteration, indexed. simpl.
    now rewrite length_map, length_combine, length_seq, Nat.min_id. }
  unfold epoch_effect.
  destruct (G (batch_indices (nb_batches p)) (set_iter_pos 0 st)) as [-> ->].
  split; reflexivity.
Qed.

Lemma run_epoch_constant (self : SGD) (p : batch_plan) (updates : list assignment)
    (t : nat) (st : state) :
  learning_schedule self = PyStr "constant" ->
  plan_fits nb_samples p ->
  run_epoch nb_samples grad valid_accuracy self p updates t st =
  (inr tt, epoch_effect grad p updates t st).
Proof.
  intros E Hp.
  pose proof (run_batches_ok nb_samples grad p updates t st Hp) as R.
  unfold run_batches, bind, modify in R.
  unfold run_epoch, bind, modify. rewrite R.
  unfold learning_schedule_step. rewrite E. reflexivity.
Qed.

Lemma optimize_unfold (self : SGD) (parameters accumulators : list tensor)
    (p : batch_plan) (updates : list assignment) :
  plan_batches nb_samples (batch_size self) = inr p ->
  build_updates (update_rule self) parameters = inr (accumulators, updates) ->
  optimize nb_samples grad valid_accuracy self parameters =
  for_each (seq 1 (Z.to_nat (nb_epochs self)))
           (run_epoch nb_samples grad valid_accuracy self p updates)
           (initial_state self parameters accumulators).
Proof. intros Hp Hu. unfold optimize, epochs. now rewrite Hp, Hu. Qed.

End WholeLoop.

(** X6: with learning_schedule = 'constant', a valid update rule,
    batch_size >= 1 and fewer than 2^31 samples, optimize returns without
    raising; it has run the batches of epochs 1 .. nb_epochs in order, that
    is nb_epochs * nb_batches steps, the learning rate is still init_rate
    and the validation function was never compiled. *)
Theorem constant_schedule_runs_every_epoch
    (nb_samples : Z) (grad : nat -> nat -> list tensor -> nat -> tensor)
    (valid_accuracy : nat -> list tensor -> option Q)
    (self : SGD) (parameters accumulators : list tensor) (updates : list assignment) :
  0 <= nb_samples < 2 ^ 31 -> 1 <= batch_size self ->
  build_updates (update_rule self) parameters = inr (accumulators, updates) ->
  learning_schedule self = PyStr "constant" ->
  exists p st,
    plan_batches nb_samples (batch_size self) = inr p /\
    optimize nb_samples grad valid_accuracy self parameters = (inr tt, st) /\
    trace st = flat_map (epoch_events p) (seq 1 (Z.to_nat (nb_epochs self))) /\
    steps_taken st = (Z.to_nat (nb_epochs self) * Z.to_nat (nb_batches p))%nat /\
    learning_rate st = init_rate self /\
    predict_label st = false.
Proof.
  intros Hn Hb Hu Hs.
  destruct (plan_feeds_iterator nb_samples (batch_size self) Hn Hb) as [p [P Hp]].
  exists p.
  rewrite (optimize_unfold nb_samples grad valid_accuracy self parameters accumulators
             p updates P Hu).
  pose (I := fun (t : nat) (st : state) =>
    trace st = flat_map (epoch_events p) (seq 1 t) /\
    learning_rate st = init_rate self /\ predict_label st = false).
  destruct (epochs_invariant I
              (run_epoch nb_samples grad valid_accuracy self p updates)) with
      (m := Z.to_nat (nb_epochs self)) (a := 0%nat)
      (st := initial_state self parameters accumulators)
    as [st [E [Ht [Hr Hl]]]].
  - intros t s [Ht [Hr Hl]].
    eexists. split; [apply run_epoch_constant; assumption |].
    destruct (epoch_effect_scheduler_fields grad p updates (S t) s) as [Er _].
    destruct (epoch_effect_other_fields grad p updates (S t) s) as [El _].
    unfold I. rewrite Er, El, epoch_effect_trace, Ht.
    split; [| split; assumption].
    rewrite seq_S, flat_map_app. simpl. now rewrite app_nil_r.
  - repeat split.
  - exists st. split; [exact P |]. split; [exact E |].
    simpl in Ht. split; [exact Ht |]. split; [| split; assumption].
    unfold steps_taken. rewrite Ht. clear.
    generalize 1%nat. induction (Z.to_nat (nb_epochs self)) as [| m IH]; intros a;
      [reflexivity |].
    simpl. rewrite filter_app, length_app, epoch_events_steps, IH. reflexivity.
Qed.

Lemma constant_schedule_runs_every_epoch_witness :
  exists p st,
    plan_batches 2 (batch_size (sgd_with_update_rule (PyStr "simple"))) = inr p /\
    optimize 2 unit_grad half_accuracy (sgd_with_update_rule (PyStr "simple")) [[5%Q]] =
      (inr tt, st) /\
    trace st = flat_map (epoch_events p)
                 (seq 1 (Z.to_nat (nb_epochs (sgd_with_update_rule (PyStr "simple"))))) /\
    steps_taken st =
      (Z.to_nat (nb_epochs (sgd_with_update_rule (PyStr "simple"))) *
       Z.to_nat (nb_batches p))%nat /\
    learning_rate st = init_rate (sgd_with_update_rule (PyStr "simple")) /\
    predict_label st = false.
Proof.
  apply (constant_schedule_runs_every_epoch 2 unit_grad half_accuracy
           (sgd_with_update_rule (PyStr "simple")) [[5%Q]] [] (simple_updates 1)).
  - lia.
  - simpl. lia.
  - reflexivity.
  - reflexivity.
Defined.

(** ** The decay schedule over a whole run *)

Lemma py_eq_int_PyInt (n d : Z) : py_eq_int n (PyInt d) = (n =? d).
Proof.
  unfold py_eq_int, py_number.
  destruct (Z.eqb_spec n d) as [-> | N].
  - apply Qeq_bool_iff. reflexivity.
  - destruct (Qeq_bool (inject_Z n) (inject_Z d)) eqn:E; [| reflexivity].
    apply Qeq_bool_iff in E. unfold Qeq in E. simpl in E. lia.
Qed.

(** What one evaluation of the decay rule does when the factor is a
    number: it never raises, records the accuracy, and either multiplies
    the rate once or leaves it alone. *)
Lemma decay_step_outcome (t : nat) (decay delay : pyval) (d : Q)
    (current_acc : option Q) (st : state) :
  py_number decay = Some d ->
  exists st',
    decay_step t decay delay current_acc st = (inr tt, st') /\
    prev_acc st' = current_acc /\
    params st' = params st /\ prev_updates st' = prev_updates st /\
    predict_label st' = predict_label st /\ iter_pos st' = iter_pos st /\
    ((exists acc, current_acc = Some acc /\ py_ge (prev_acc st) acc = true /\
                  py_eq_int (prev_dec st) delay = true /\
                  learning_rate st' = (learning_rate st * d)%Q /\
                  trace st' = trace st ++ [Decayed t] /\
                  prev_dec st' = prev_dec st)
     \/
     (learning_rate st' = learning_rate st /\ trace st' = trace st /\
      (prev_dec st' = prev_dec st \/
       (prev_dec st' = prev_dec st + 1 /\ py_eq_int (prev_dec st) delay = false)))).
Proof.
  intros Hd. unfold decay_step, bind, gets, modify, ret.
  destruct current_acc as [acc |].
  - destruct (py_ge (prev_acc st) acc) eqn:G.
    + destruct (py_eq_int (prev_dec st) delay) eqn:Eq.
      * rewrite Hd. eexists. split; [reflexivity |]. repeat (split; [reflexivity |]).
        left. exists acc. repeat split; try assumption; reflexivity.
      * eexists. split; [reflexivity |]. repeat (split; [reflexivity |]).
        right. repeat split. right. split; reflexivity.
    + eexists. split; [reflexivity |]. repeat (split; [reflexivity |]).
      right. repeat split. now left.
  - eexists. split; [reflexivity |]. repeat (split; [reflexivity |]).
    right. repeat split. now left.
Qed.

Section DecayRun.

Variable nb_samples : Z.
Variable grad : nat -> nat -> list tensor -> nat -> tensor.
Variable valid_accuracy : nat -> list tensor -> option Q.
Variable self : SGD.
Variables parameters accumulators : list tensor.
Variable updates : list assignment.
Variables decay delay : pyval.
Variable d : Q.
Variable p : batch_plan.

Hypothesis Hsched : learning_schedule self = PyTuple [PyStr "decay"; decay; delay].
Hypothesis Hdecay : py_number decay = Some d.
Hypothesis Hfits : plan_fits nb_samples p.

Lemma decay_run_invariant_initially :
  decay_run_invariant self p d delay 0 (initial_state self parameters accumulators).
Proof.
  unfold decay_run_invariant. simpl.
  repeat split; try reflexivity; try lia.
  unfold decay_count. simpl. ring.
Qed.

Lemma decay_run_invariant_step (t : nat) (st : state) :
  decay_run_invariant self p d delay t st ->
  exists st', run_epoch nb_samples grad valid_accuracy self p updates (S t) st = (inr tt, st') /\
              decay_run_invariant self p d delay (S t) st'.
Proof.
  intros [Hs [Hv [Hl [Hr [Hc [H0 Hb]]]]]].
  rewrite (run_epoch_decay nb_samples grad valid_accuracy self p updates decay delay
             (S t) st Hsched Hfits).
  set (e := epoch_effect grad p updates (S t) st).
  set (s2 := log (Validated (S t)) (set_predict_label true e)).
  destruct (epoch_effect_scheduler_fields grad p updates (S t) st) as [Er [Ea Ed]].
  fold e in Er, Ea, Ed.
  assert (Et : trace s2 = (trace st ++ epoch_events p (S t)) ++ [Validated (S t)]).
  { unfold s2, e. simpl. now rewrite epoch_effect_trace. }
  assert (Csteps : steps_taken s2 = (steps_taken st + Z.to_nat (nb_batches p))%nat).
  { unfold steps_taken. rewrite Et, !filter_app, !length_app, epoch_events_steps.
    simpl. lia. }
  assert (Cval : validations s2 = S (validations st)).
  { unfold validations. rewrite Et, !filter_app, !length_app.
    rewrite filter_epoch_events by reflexivity. simpl. lia. }
  assert (Cdec : decay_count s2 = decay_count st).
  { unfold decay_count. rewrite Et, !filter_app, !length_app.
    rewrite filter_epoch_events by reflexivity. simpl. lia. }
  destruct (decay_step_outcome (S t) decay delay d (valid_accuracy (S t) (params e)) s2 Hdecay)
    as [st' [E [Ha' [_ [_ [Hl' [_ Hcase]]]]]]].
  exists st'. split; [exact E |].
  assert (Hacc2 : prev_acc s2 = prev_acc st) by exact Ea.
  assert (Hdec2 : prev_dec s2 = prev_dec st) by exact Ed.
  assert (Hlr2 : learning_rate s2 = learning_rate st) by exact Er.
  destruct Hcase as [[acc [_ [Hge [Heq [Hlr [Htr Hpd]]]]]] | [Hlr [Htr Hpd]]].
  - (* the rate is decayed *)
    assert (Ht0 : t <> 0%nat).
    { intros ->. rewrite Hacc2, (H0 eq_refl) in Hge. discriminate. }
    unfold decay_run_invariant.
    assert (Cs : steps_taken st' = steps_taken s2).
    { unfold steps_taken. rewrite Htr, filter_app, length_app. simpl. lia. }
    assert (Cv : validations st' = validations s2).
    { unfold validations. rewrite Htr, filter_app, length_app. simpl. lia. }
    assert (Cd : decay_count st' = S (decay_count s2)).
    { unfold decay_count. rewrite Htr, filter_app, length_app. simpl. lia. }
    rewrite Cs, Cv, Cd, Csteps, Cval, Cdec, Hs, Hv, Hl', Hlr, Hlr2, Hpd, Hdec2.
    split; [lia |]. split; [reflexivity |]. split; [reflexivity |].
    split; [simpl; rewrite Hr; ring |].
    split; [lia |]. split; [discriminate |]. exact Hb.
  - unfold decay_run_invariant.
    assert (Cs : steps_taken st' = steps_taken s2) by (unfold steps_taken; now rewrite Htr).
    assert (Cv : validations st' = validations s2) by (unfold validations; now rewrite Htr).
    assert (Cd : decay_count st' = decay_count s2) by (unfold decay_count; now rewrite Htr).
    rewrite Cs, Cv, Cd, Csteps, Cval, Cdec, Hs, Hv, Hl', Hlr, Hlr2.
    split; [lia |]. split; [reflexivity |]. split; [reflexivity |].
    split; [exact Hr |]. split; [lia |]. split; [discriminate |].
    intros patience Hp Hp0. specialize (Hb patience Hp Hp0).
    destruct Hpd as [-> | [-> Hne]]; rewrite Hdec2; [exact Hb |].
    rewrite Hdec2, Hp, py_eq_int_PyInt in Hne. apply Z.eqb_neq in Hne. lia.
Qed.

Lemma decay_run (Hplan : plan_batches nb_samples (batch_size self) = inr p)
    (Hbuild : build_updates (update_rule self) parameters = inr (accumulators, updates)) :
  exists st, optimize nb_samples grad valid_accuracy self parameters = (inr tt, st) /\
             decay_run_invariant self p d delay (Z.to_nat (nb_epochs self)) st.
Proof.
  rewrite (optimize_unfold nb_samples grad valid_accuracy self parameters accumulators
             p updates Hplan Hbuild).
  apply (epochs_invariant (decay_run_invariant self p d delay)
           (run_epoch nb_samples grad valid_accuracy self p updates)
           decay_run_invariant_step (Z.to_nat (nb_epochs self)) 0%nat).
  apply decay_run_invariant_initially.
Qed.

End DecayRun.

(** X7: with learning_schedule = ('decay', factor, delay) where factor is a
    number, a valid update rule, batch_size >= 1 and fewer than 2^31
    samples, optimize returns without raising; it has taken nb_epochs *
    nb_batches steps, measured the validation accuracy exactly once per
    epoch, and compiled the validation function if and only if at least one
    epoch ran. *)
Theorem decay_schedule_validates_every_epoch
    (nb_samples : Z) (grad : nat -> nat -> list tensor -> nat -> tensor)
    (valid_accuracy : nat -> list tensor -> option Q)
    (self : SGD) (parameters accumulators : list tensor) (updates : list assignment)
    (decay delay : pyval) (d : Q) :
  0 <= nb_samples < 2 ^ 31 -> 1 <= batch_size self ->
  build_updates (update_rule self) parameters = inr (accumulators, updates) ->
  learning_schedule self = PyTuple [PyStr "decay"; decay; delay] ->
  py_number decay = Some d ->
  exists p st,
    plan_batches nb_samples (batch_size self) = inr p /\
    optimize nb_samples grad valid_accuracy self parameters = (inr tt, st) /\
    steps_taken st = (Z.to_nat (nb_epochs self) * Z.to_nat (nb_batches p))%nat /\
    validations st = Z.to_nat (nb_epochs self) /\
    predict_label st = negb (Nat.eqb (Z.to_nat (nb_epochs self)) 0).
Proof.
  intros Hn Hb Hu Hs Hd.
  destruct (plan_feeds_iterator nb_samples (batch_size self) Hn Hb) as [p [P Hp]].
  destruct (decay_run nb_samples grad valid_accuracy self parameters accumulators updates
              decay delay d p Hs Hd Hp P Hu) as [st [E [I1 [I2 [I3 _]]]]].
  exists p, st. repeat split; assumption.
Qed.


(** X9: under a decay schedule with an integer delay >= 0 the stall counter
    prev_dec ends between 0 and delay. *)
Theorem stall_counter_stays_within_delay
    (nb_samples : Z) (grad : nat -> nat -> list tensor -> nat -> tensor)
    (valid_accuracy : nat -> list tensor -> option Q)
    (self : SGD) (parameters accumulators : list tensor) (updates : list assignment)
    (decay : pyval) (d : Q) (delay : Z) :
  0 <= nb_samples < 2 ^ 31 -> 1 <= batch_size self ->
  build_updates (update_rule self) parameters = inr (accumulators, updates) ->
  learning_schedule self = PyTuple [PyStr "decay"; decay; PyInt delay] ->
  py_number decay = Some d ->
  0 <= delay ->
  exists st,
    optimize nb_samples grad valid_accuracy self parameters = (inr tt, st) /\
    0 <= prev_dec st <= delay.
Proof.
  intros Hn Hb Hu Hs Hd H0.
  destruct (plan_feeds_iterator nb_samples (batch_size self) Hn Hb) as [p [P Hp]].
  destruct (decay_run nb_samples grad valid_accuracy self parameters accumulators updates
              decay (PyInt delay) d p Hs Hd Hp P Hu)
    as [st [E [_ [_ [_ [_ [_ [_ I7]]]]]]]].
  exists st. split; [exact E |]. now apply (I7 delay).
Qed.

Lemma decay_schedule_validates_every_epoch_witness :
  exists p st,
    plan_batches 1 (batch_size (decaying_sgd 4 2)) = inr p /\
    optimize 1 unit_grad half_accuracy (decaying_sgd 4 2) [[5%Q]] = (inr tt, st) /\
    steps_taken st = (Z.to_nat (nb_epochs (decaying_sgd 4 2)) * Z.to_nat (nb_batches p))%nat /\
    validations st = Z.to_nat (nb_epochs (decaying_sgd 4 2)) /\
    predict_label st = negb (Nat.eqb (Z.to_nat (nb_epochs (decaying_sgd 4 2))) 0).
Proof.
  apply (decay_schedule_validates_every_epoch 1 unit_grad half_accuracy (decaying_sgd 4 2)
           [[5%Q]] [] (simple_updates 1) (PyFloat (1 # 2)) (PyInt 2) (1 # 2)).
  - lia.
  - simpl. lia.
  - reflexivity.
  - reflexivity.
  - reflexivity.
Defined.


Lemma stall_counter_stays_within_delay_witness :
  exists st,
    optimize 1 unit_grad half_accuracy (decaying_sgd 4 2) [[5%Q]] = (inr tt, st) /\
    0 <= prev_dec st <= 2.
Proof.
  apply (stall_counter_stays_within_delay 1 unit_grad half_accuracy (decaying_sgd 4 2)
           [[5%Q]] [] (simple_updates 1) (PyFloat (1 # 2)) (1 # 2) 2).
  - lia.
  - simpl. lia.
  - reflexivity.
  - reflexivity.
  - reflexivity.
  - lia.
Defined.

(** ** Improving accuracy under a decay schedule *)

(** X10: under a decay schedule, whatever the factor and the delay are, a
    validation accuracy that strictly increases from each epoch to the next
    never decays the learning rate: optimize returns with the rate at
    init_rate and the stall counter at 0. *)
Theorem improving_accuracy_never_decays
    (nb_samples : Z) (grad : nat -> nat -> list tensor -> nat -> tensor)
    (valid_accuracy : nat -> list tensor -> option Q) (accuracy : nat -> Q)
    (self : SGD) (parameters accumulators : list tensor) (updates : list assignment)
    (decay delay : pyval) :
  0 <= nb_samples < 2 ^ 31 -> 1 <= batch_size self ->
  build_updates (update_rule self) parameters = inr (accumulators, updates) ->
  learning_schedule self = PyTuple [PyStr "decay"; decay; delay] ->
  (forall t ps, valid_accuracy t ps = Some (accuracy t)) ->
  (forall t, (accuracy t < accuracy (S t))%Q) ->
  exists st,
    optimize nb_samples grad valid_accuracy self parameters = (inr tt, st) /\
    learning_rate st = init_rate self /\
    decay_count st = 0%nat /\
    prev_dec st = 0.
Proof.
  intros Hn Hb Hu Hs Hacc Hinc.
  destruct (plan_feeds_iterator nb_samples (batch_size self) Hn Hb) as [p [P Hp]].
  rewrite (optimize_unfold nb_samples grad valid_accuracy self parameters accumulators
             p updates P Hu).
  pose (I := fun (t : nat) (st : state) =>
    learning_rate st = init_rate self /\ decay_count st = 0%nat /\ prev_dec st = 0 /\
    prev_acc st = match t with O => None | S _ => Some (accuracy t) end).
  destruct (epochs_invariant I
              (run_epoch nb_samples grad valid_accuracy self p updates)) with
      (m := Z.to_nat (nb_epochs self)) (a := 0%nat)
      (st := initial_state self parameters accumulators)
    as [st [E [Hr [Hc [Hd _]]]]].
  - intros t s [Hr [Hc [Hd Ha]]].
    rewrite (run_epoch_decay nb_samples grad valid_accuracy self p updates decay delay
               (S t) s Hs Hp).
    rewrite Hacc.
    set (e := epoch_effect grad p updates (S t) s).
    destruct (epoch_effect_scheduler_fields grad p updates (S t) s) as [Er [Ea Ed]].
    fold e in Er, Ea, Ed.
    assert (G : py_ge (prev_acc s) (accuracy (S t)) = false).
    { rewrite Ha. destruct t as [| t]; [reflexivity |]. simpl.
      destruct (Qle_bool (accuracy (S (S t))) (accuracy (S t))) eqn:Q; [| reflexivity].
      apply Qle_bool_iff in Q. specialize (Hinc (S t)). lra. }
    unfold decay_step, bind, gets, modify, ret. cbn [prev_acc log set_predict_label].
    rewrite Ea, G.
    eexists. split; [reflexivity |].
    unfold I. cbn [learning_rate prev_dec prev_acc set_prev_acc log set_predict_label].
    split; [congruence |]. split; [| split; [congruence | reflexivity]].
    unfold decay_count in *. cbn [trace set_prev_acc log set_predict_label].
    unfold e. rewrite epoch_effect_trace, !filter_app, !length_app.
    rewrite filter_epoch_events by reflexivity. simpl. lia.
  - repeat split.
  - exists st. repeat split; assumption.
Qed.

Lemma rising_accuracy_rises (t : nat) : (rising_accuracy t < rising_accuracy (S t))%Q.
Proof.
  unfold rising_accuracy, Qlt. cbn [Qnum Qden].
  rewrite !Zpos_P_of_succ_nat. nia.
Qed.

Lemma improving_accuracy_never_decays_witness :
  exists st,
    optimize 1 unit_grad rising_oracle (decaying_sgd 4 0) [[5%Q]] = (inr tt, st) /\
    learning_rate st = init_rate (decaying_sgd 4 0) /\
    decay_count st = 0%nat /\
    prev_dec st = 0.
Proof.
  apply (improving_accuracy_never_decays 1 unit_grad rising_oracle rising_accuracy
           (decaying_sgd 4 0) [[5%Q]] [] (simple_updates 1) (PyFloat (1 # 2)) (PyInt 0)).
  - lia.
  - simpl. lia.
  - reflexivity.
  - reflexivity.
  - reflexivity.
  - exact rising_accuracy_rises.
Defined.

(** ** Schedules that fail at the first epoch boundary *)

Section FirstBoundary.

Variable nb_samples : Z.
Variable grad : nat -> nat -> list tensor -> nat -> tensor.
Variable valid_accuracy : nat -> list tensor -> option Q.

Lemma first_epoch_then_schedule_error
    (self : SGD) (parameters accumulators : list tensor)
    (p : batch_plan) (updates : list assignment) (e : exn) :
  1 <= nb_epochs self ->
  plan_batches nb_samples (batch_size self) = inr p ->
  build_updates (update_rule self) parameters = inr (accumulators, updates) ->
  plan_fits nb_samples p ->
  (forall st, learning_schedule_step valid_accuracy self 1 st = (inl e, st)) ->
  optimize nb_samples grad valid_accuracy self parameters =
  (inl e, epoch_effect grad p updates 1 (initial_state self parameters accumulators)).
Proof.
  intros He Hplan Hupd Hp Hs.
  rewrite (optimize_unfold nb_samples grad valid_accuracy self parameters accumulators
             p updates Hplan Hupd).
  replace (Z.to_nat (nb_epochs self)) with (S (Z.to_nat (nb_epochs self) - 1)) by lia.
  cbn [seq for_each]. unfold bind at 1.
  pose proof (run_batches_ok nb_samples grad p updates 1
                (initial_state self parameters accumulators) Hp) as R.
  unfold run_batches, bind, modify in R.
  unfold run_epoch, bind, modify. rewrite R. now rewrite Hs.
Qed.

End FirstBoundary.

(** X11: a schedule tuple headed by 'decay' with any number of further entries
    other than two, such as the ('decay', decay_factor) of the constructor's
    docstring, fails at [decay, delay = self.learning_schedule[1:]]: optimize
    runs the batches of the first epoch and then raises ValueError, before
    any validation. *)
Theorem decay_schedule_needs_factor_and_delay
    (nb_samples : Z) (grad : nat -> nat -> list tensor -> nat -> tensor)
    (valid_accuracy : nat -> list tensor -> option Q)
    (self : SGD) (parameters accumulators : list tensor) (updates : list assignment)
    (arguments : list pyval) :
  0 <= nb_samples < 2 ^ 31 -> 1 <= batch_size self -> 1 <= nb_epochs self ->
  build_updates (update_rule self) parameters = inr (accumulators, updates) ->
  learning_schedule self = PyTuple (PyStr "decay" :: arguments) ->
  List.length arguments <> 2%nat ->
  exists p st,
    plan_batches nb_samples (batch_size self) = inr p /\
    optimize nb_samples grad valid_accuracy self parameters =
      (inl (ValueError UnpackMismatch), st) /\
    trace st = epoch_events p 1 /\
    validations st = 0%nat /\
    predict_label st = false.
Proof.
  intros Hn Hb He Hu Hs Hlen.
  destruct (plan_feeds_iterator nb_samples (batch_size self) Hn Hb) as [p [P Hp]].
  exists p. eexists. split; [exact P |]. split.
  - apply (first_epoch_then_schedule_error nb_samples grad valid_accuracy self
             parameters accumulators p updates); try assumption.
    intros st. unfold learning_schedule_step. rewrite Hs.
    destruct arguments as [| a [| b [| c rest]]]; try reflexivity.
    simpl in Hlen. lia.
  - rewrite epoch_effect_trace.
    destruct (epoch_effect_other_fields grad p updates 1
                (initial_state self parameters accumulators)) as [-> _].
    split; [reflexivity |]. split; [| reflexivity].
    unfold validations. rewrite epoch_effect_trace. simpl.
    now rewrite filter_epoch_events.
Qed.

Lemma decay_schedule_needs_factor_and_delay_witness :
  exists p st,
    plan_batches 2 (batch_size (sgd_with_schedule 3 (PyTuple [PyStr "decay"; PyFloat (1 # 2)])))
      = inr p /\
    optimize 2 unit_grad half_accuracy
             (sgd_with_schedule 3 (PyTuple [PyStr "decay"; PyFloat (1 # 2)])) [[5%Q]] =
      (inl (ValueError UnpackMismatch), st) /\
    trace st = epoch_events p 1 /\
    validations st = 0%nat /\
    predict_label st = false.
Proof.
  apply (decay_schedule_needs_factor_and_delay 2 unit_grad half_accuracy
           (sgd_with_schedule 3 (PyTuple [PyStr "decay"; PyFloat (1 # 2)]))
           [[5%Q]] [] (simple_updates 1) [PyFloat (1 # 2)]).
  - lia.
  - simpl. lia.
  - simpl. lia.
  - reflexivity.
  - reflexivity.
  - simpl. lia.
Defined.

(** ** No epoch at all *)



(** ** Samples and labels of a batch *)

(** X13: below 2^31 samples, when batch i is about to be drawn from the sample
    iterator exactly splits[i] samples have been drawn since the start of
    the epoch, so the samples of batch i are those at positions splits[i]
    .. splits[i+1] - 1, the positions of its label slice; after the last
    batch every sample has been drawn exactly once. *)
Theorem batches_start_at_their_split
    (nb_samples : Z) (grad : nat -> nat -> list tensor -> nat -> tensor)
    (batch_size : Z) (updates : list assignment) (t : nat) (st : state) :
  0 <= nb_samples < 2 ^ 31 -> 1 <= batch_size ->
  exists p,
    plan_batches nb_samples batch_size = inr p /\
    (forall i, (i <= Z.to_nat (nb_batches p))%nat ->
       exists st_i,
         for_each (seq 0 i) (train_batch nb_samples grad p updates t) (set_iter_pos 0 st)
           = (inr tt, st_i) /\
         iter_pos st_i = split_at (splits p) i) /\
    (exists st_end,
       run_batches nb_samples grad p updates t st = (inr tt, st_end) /\
       iter_pos st_end = nb_samples).
Proof.
  intros Hn Hb.
  destruct (plan_feeds_iterator nb_samples batch_size Hn Hb) as [p [P Hp]].
  exists p. split; [exact P |].
  assert (Hoff : forall i, (i <= Z.to_nat (nb_batches p))%nat ->
                           offset p i = split_at (splits p) i).
  { destruct (Z.eq_dec nb_samples 0) as [E0 | N0].
    - rewrite E0, plan_empty_dataset in P by exact Hb. injection P as <-.
      simpl. intros i Hi. replace i with 0%nat by lia. reflexivity.
    - destruct (plan_batches_spec nb_samples batch_size ltac:(lia) Hb) as [k [_ [Hk P']]].
      rewrite P in P'. injection P' as ->. cbn [nb_batches splits].
      intros i Hi. rewrite offset_closed_form, split_at_closed_form by lia. reflexivity. }
  assert (Hlast : split_at (splits p) (Z.to_nat (nb_batches p)) = nb_samples).
  { destruct (Z.eq_dec nb_samples 0) as [E0 | N0].
    - rewrite E0, plan_empty_dataset in P by exact Hb. injection P as <-.
      rewrite E0. reflexivity.
    - destruct (plan_batches_spec nb_samples batch_size ltac:(lia) Hb) as [k [_ [Hk P']]].
      rewrite P in P'. injection P' as ->. cbn [nb_batches splits].
      rewrite split_at_closed_form by lia. apply boundary_last. exact Hk. }
  split.
  - intros i Hi. eexists. split.
    + apply (batches_run nb_samples grad p updates t (set_iter_pos 0 st) eq_refl Hp i Hi).
    + rewrite batches_effect_iter_pos. simpl. now apply Hoff.
  - eexists. split; [apply run_batches_ok; exact Hp |].
    unfold epoch_effect, batch_indices. rewrite batches_effect_iter_pos. simpl.
    rewrite Hoff by lia. exact Hlast.
Qed.

Lemma batches_start_at_their_split_witness :
  exists p,
    plan_batches 100 32 = inr p /\
    (forall i, (i <= Z.to_nat (nb_batches p))%nat ->
       exists st_i,
         for_each (seq 0 i) (train_batch 100 unit_grad p (simple_updates 1) 1)
                  (set_iter_pos 0 (initial_state (SGD_init 32 1 1) [[5%Q]] []))
           = (inr tt, st_i) /\
         iter_pos st_i = split_at (splits p) i) /\
    (exists st_end,
       run_batches 100 unit_grad p (simple_updates 1) 1
                   (initial_state (SGD_init 32 1 1) [[5%Q]] []) = (inr tt, st_end) /\
       iter_pos st_end = 100).
Proof.
  apply (batches_start_at_their_split 100 unit_grad 32 (simple_updates 1) 1
           (initial_state (SGD_init 32 1 1) [[5%Q]] [])); lia.
Defined.

(** ** The compiled step in closed form *)

Lemma nth_map_seq_any {A} (f : nat -> A) (a len i : nat) (d : A) :
  (i < len)%nat -> nth i (map f (seq a len)) d = f (a + i)%nat.
Proof.
  revert a i. induction len as [| len IH]; intros a i Hi; [lia |].
  destruct i as [| i]; simpl.
  - f_equal. lia.
  - rewrite IH by lia. f_equal. lia.
Qed.

Lemma list_as_map_nth {A} (d : A) (l : list A) :
  l = map (fun i => nth i l d) (seq 0 (List.length l)).
Proof.
  apply (nth_ext _ _ d d).
  - now rewrite length_map, length_seq.
  - intros i Hi. now rewrite nth_map_seq_any.
Qed.

Lemma lookup_prev_in_simple_updates (n i : nat) :
  lookup_update (SPrev i) (simple_updates n) = None.
Proof.
  unfold simple_updates. generalize 0%nat.
  induction n as [| n IH]; intros a; [reflexivity | simpl; apply IH].
Qed.

(** The simple rule has no accumulators to touch. *)
Lemma simple_step_keeps_accumulators (g : nat -> tensor) (st : state) (n : nat) :
  prev_updates (run_iteration (simple_updates n) g st) = prev_updates st.
Proof.
  unfold run_iteration, set_tensors. cbn [prev_updates].
  rewrite (indexed_as_seq ([] : tensor) (prev_updates st)), map_map. cbn [fst snd].
  etransitivity; [| symmetry; apply (list_as_map_nth ([] : tensor))].
  apply map_ext. intros i. unfold next_value.
  now rewrite lookup_prev_in_simple_updates.
Qed.

(** The accumulators a momentum step assigns. *)
Lemma momentum_step_accumulators (mtm : Q) (g : nat -> tensor) (st : state) :
  List.length (prev_updates st) = List.length (params st) ->
  prev_updates (run_iteration (momentum_updates mtm (List.length (params st))) g st) =
  map (fun i => tensor_add (tensor_scale mtm (nth i (prev_updates st) []))
                           (tensor_scale (learning_rate st) (g i)))
      (seq 0 (List.length (params st))).
Proof.
  intros Hlen. unfold run_iteration, set_tensors. cbn [prev_updates].
  rewrite (indexed_as_seq ([] : tensor) (prev_updates st)), map_map. cbn [fst snd].
  rewrite Hlen. apply map_ext_in. intros i Hi. apply in_seq in Hi.
  unfold next_value.
  destruct (lookup_momentum_updates mtm (List.length (params st)) i ltac:(lia)) as [_ ->].
  reflexivity.
Qed.

(** The parameters a momentum step assigns. *)
Lemma momentum_step_parameters (mtm : Q) (g : nat -> tensor) (st : state) :
  params (run_iteration (momentum_updates mtm (List.length (params st))) g st) =
  map (fun i => tensor_sub (nth i (params st) [])
                  (tensor_add (tensor_scale mtm (nth i (prev_updates st) []))
                              (tensor_scale (learning_rate st) (g i))))
      (seq 0 (List.length (params st))).
Proof.
  unfold run_iteration, set_tensors. cbn [params].
  rewrite (indexed_as_seq ([] : tensor) (params st)), map_map. cbn [fst snd].
  apply map_ext_in. intros i Hi. apply in_seq in Hi.
  unfold next_value.
  destruct (lookup_momentum_updates mtm (List.length (params st)) i ltac:(lia)) as [-> _].
  reflexivity.
Qed.

(** X14: one momentum step, from any accumulators: every accumulator becomes
    mtm * v_prev + learning_rate * grad, computed from its value before the
    step, and every parameter moves by exactly the value its accumulator
    holds after the step. *)
Theorem momentum_step_closed_form (mtm : Q) (g : nat -> tensor) (st : state) :
  List.length (prev_updates st) = List.length (params st) ->
  let n := List.length (params st) in
  let st' := run_iteration (momentum_updates mtm n) g st in
  let cur := fun i => tensor_add (tensor_scale mtm (nth i (prev_updates st) []))
                                 (tensor_scale (learning_rate st) (g i)) in
  prev_updates st' = map cur (seq 0 n) /\
  params st' = map (fun i => tensor_sub (nth i (params st) []) (cur i)) (seq 0 n) /\
  (forall i, (i < n)%nat ->
     nth i (params st') [] = tensor_sub (nth i (params st) []) (nth i (prev_updates st') [])).
Proof.
  intros Hlen n st' cur. subst st' n.
  pose proof (momentum_step_accumulators mtm g st Hlen) as Ev.
  pose proof (momentum_step_parameters mtm g st) as Ep.
  split; [exact Ev |]. split; [exact Ep |].
  intros i Hi. rewrite Ep, Ev.
  rewrite (nth_map_seq_any _ 0 (List.length (params st)) i) by exact Hi.
  rewrite (nth_map_seq_any cur 0 (List.length (params st)) i) by exact Hi.
  reflexivity.
Qed.

Lemma momentum_step_closed_form_witness :
  prev_updates (run_iteration
                  (momentum_updates (9 # 10) (List.length (params momentum_example_state)))
                  example_grad momentum_example_state)
    = map (fun i => tensor_add
                      (tensor_scale (9 # 10) (nth i (prev_updates momentum_example_state) []))
                      (tensor_scale (learning_rate momentum_example_state) (example_grad i)))
          (seq 0 (List.length (params momentum_example_state))) /\
  params (run_iteration
            (momentum_updates (9 # 10) (List.length (params momentum_example_state)))
            example_grad momentum_example_state)
    = map (fun i => tensor_sub (nth i (params momentum_example_state) [])
                      (tensor_add
                         (tensor_scale (9 # 10) (nth i (prev_updates momentum_example_state) []))
                         (tensor_scale (learning_rate momentum_example_state) (example_grad i))))
          (seq 0 (List.length (params momentum_example_state))) /\
  (forall i, (i < List.length (params momentum_example_state))%nat ->
     nth i (params (run_iteration
                      (momentum_updates (9 # 10) (List.length (params momentum_example_state)))
                      example_grad momentum_example_state)) []
     = tensor_sub (nth i (params momentum_example_state) [])
         (nth i (prev_updates
                   (run_iteration
                      (momentum_updates (9 # 10) (List.length (params momentum_example_state)))
                      example_grad momentum_example_state)) [])).
Proof.
  apply (momentum_step_closed_form (9 # 10) example_grad momentum_example_state).
  reflexivity.
Defined.

(** ** Momentum with a zero coefficient *)

Lemma zero_coefficient_term (v x : tensor) :
  List.length v = List.length x ->
  tensor_eq (tensor_add (tensor_scale 0 v) x) x.
Proof.
  unfold tensor_add, tensor_scale.
  revert x. induction v as [| a v IH]; intros [| b x] H; simpl in *; try discriminate.
  - constructor.
  - constructor; [ring | apply IH; lia].
Qed.

(** X15: with coefficient 0 the momentum rule is the simple rule at every
    step, whatever the accumulators hold: the parameters after the step are
    those of the simple step and the accumulators hold
    learning_rate * grad. *)
Theorem zero_momentum_is_the_simple_rule (g : nat -> tensor) (st : state) :
  let n := List.length (params st) in
  List.length (prev_updates st) = n ->
  (forall i, (i < n)%nat ->
             List.length (nth i (prev_updates st) []) = List.length (g i)) ->
  let st_m := run_iteration (momentum_updates 0 n) g st in
  let st_s := run_iteration (simple_updates n) g st in
  tensors_eq (params st_m) (params st_s) /\
  tensors_eq (prev_updates st_m)
             (map (fun i => tensor_scale (learning_rate st) (g i)) (seq 0 n)).
Proof.
  intros n Hlen Hshape st_m st_s. subst st_m st_s n.
  pose proof (momentum_step_accumulators 0 g st Hlen) as Ev.
  pose proof (momentum_step_parameters 0 g st) as Ep.
  rewrite Ep, Ev, simple_step_closed_form.
  split.
  - apply Forall2_map_seq. intros i Hi.
    apply minus_tensor_eq.
    apply (zero_coefficient_term (nth i (prev_updates st) [])
             (tensor_scale (learning_rate st) (g i))).
    unfold tensor_scale. rewrite length_map. apply Hshape. lia.
  - apply Forall2_map_seq. intros i Hi.
    apply (zero_coefficient_term (nth i (prev_updates st) [])
             (tensor_scale (learning_rate st) (g i))).
    unfold tensor_scale. rewrite length_map. apply Hshape. lia.
Qed.

(** ** Shapes across a step *)

Lemma length_tensor_sub (x y : tensor) :
  List.length (tensor_sub x y) = Nat.min (List.length x) (List.length y).
Proof. unfold tensor_sub. now rewrite length_map, length_combine. Qed.

Lemma length_tensor_add (x y : tensor) :
  List.length (tensor_add x y) = Nat.min (List.length x) (List.length y).
Proof. unfold tensor_add. now rewrite length_map, length_combine. Qed.

Lemma length_tensor_scale (c : Q) (x : tensor) :
  List.length (tensor_scale c x) = List.length x.
Proof. unfold tensor_scale. apply length_map. Qed.

Lemma shapes_as_map (ts : list tensor) :
  shapes ts = map (fun i => List.length (nth i ts [])) (seq 0 (List.length ts)).
Proof.
  unfold shapes. rewrite (list_as_map_nth ([] : tensor) ts) at 1.
  now rewrite map_map.
Qed.

(** X16: a step of the simple rule keeps the number and the shape of every
    parameter and leaves the accumulators as they are. *)
Theorem simple_step_keeps_shapes (g : nat -> tensor) (st : state) :
  let n := List.length (params st) in
  (forall i, (i < n)%nat -> List.length (g i) = List.length (nth i (params st) [])) ->
  shapes (params (run_iteration (simple_updates n) g st)) = shapes (params st) /\
  prev_updates (run_iteration (simple_updates n) g st) = prev_updates st.
Proof.
  intros n Hg. subst n.
  split; [| apply simple_step_keeps_accumulators].
  rewrite simple_step_closed_form.
  rewrite (shapes_as_map (params st)). unfold shapes. rewrite map_map.
  apply map_ext_in. intros i Hi. apply in_seq in Hi.
  fold (tensor_scale (learning_rate st) (g i)).
  fold (tensor_sub (nth i (params st) []) (tensor_scale (learning_rate st) (g i))).
  rewrite length_tensor_sub, length_tensor_scale, Hg by lia. apply Nat.min_id.
Qed.

(** X17: a step of the momentum rule keeps the number and the shape of every
    parameter, and the accumulators keep the shapes of the parameters. *)
Theorem momentum_step_keeps_shapes (mtm : Q) (g : nat -> tensor) (st : state) :
  let n := List.length (params st) in
  (forall i, (i < n)%nat -> List.length (g i) = List.length (nth i (params st) [])) ->
  shapes (prev_updates st) = shapes (params st) ->
  shapes (params (run_iteration (momentum_updates mtm n) g st)) = shapes (params st) /\
  shapes (prev_updates (run_iteration (momentum_updates mtm n) g st)) =
    shapes (params st).
Proof.
  intros n Hg Hv. subst n.
  assert (Hlen : List.length (prev_updates st) = List.length (params st)).
  { apply (f_equal (@List.length nat)) in Hv. unfold shapes in Hv.
    now rewrite !length_map in Hv. }
  assert (Hvi : forall i, (i < List.length (params st))%nat ->
            List.length (nth i (prev_updates st) []) = List.length (nth i (params st) [])).
  { intros i Hi. rewrite !shapes_as_map, Hlen in Hv.
    apply (f_equal (fun l => nth i l 0%nat)) in Hv.
    rewrite !(nth_map_seq_any _ 0 (List.length (params st)) i) in Hv by exact Hi.
    exact Hv. }
  pose proof (momentum_step_accumulators mtm g st Hlen) as Ev.
  pose proof (momentum_step_parameters mtm g st) as Ep.
  rewrite Ep, Ev.
  rewrite (shapes_as_map (params st)). unfold shapes. rewrite !map_map.
  split; apply map_ext_in; intros i Hi; apply in_seq in Hi.
  - rewrite length_tensor_sub, length_tensor_add, !length_tensor_scale.
    rewrite Hvi, Hg by lia. now rewrite !Nat.min_id.
  - rewrite length_tensor_add, !length_tensor_scale.
    rewrite Hvi, Hg by lia. now rewrite Nat.min_id.
Qed.

Lemma zero_momentum_is_the_simple_rule_witness :
  tensors_eq
    (params (run_iteration (momentum_updates 0 (List.length (params momentum_example_state)))
                           example_grad momentum_example_state))
    (params (run_iteration (simple_updates (List.length (params momentum_example_state)))
                           example_grad momentum_example_state)) /\
  tensors_eq
    (prev_updates
       (run_iteration (momentum_updates 0 (List.length (params momentum_example_state)))
                      example_grad momentum_example_state))
    (map (fun i => tensor_scale (learning_rate momentum_example_state) (example_grad i))
         (seq 0 (List.length (params momentum_example_state)))).
Proof.
  apply (zero_momentum_is_the_simple_rule example_grad momentum_example_state).
  - reflexivity.
  - intros [| [| i]] Hi; simpl in *; try reflexivity; lia.
Defined.

Lemma simple_step_keeps_shapes_witness :
  shapes (params (run_iteration (simple_updates (List.length (params momentum_example_state)))
                                example_grad momentum_example_state))
    = shapes (params momentum_example_state) /\
  prev_updates (run_iteration (simple_updates (List.length (params momentum_example_state)))
                              example_grad momentum_example_state)
    = prev_updates momentum_example_state.
Proof.
  apply (simple_step_keeps_shapes example_grad momentum_example_state).
  intros [| [| i]] Hi; simpl in *; try reflexivity; lia.
Defined.

Lemma momentum_step_keeps_shapes_witness :
  shapes (params (run_iteration
                    (momentum_updates (9 # 10) (List.length (params momentum_example_state)))
                    example_grad momentum_example_state))
    = shapes (params momentum_example_state) /\
  shapes (prev_updates (run_iteration
                    (momentum_updates (9 # 10) (List.length (params momentum_example_state)))
                    example_grad momentum_example_state))
    = shapes (params momentum_example_state).
Proof.
  apply (momentum_step_keeps_shapes (9 # 10) example_grad momentum_example_state).
  - intros [| [| i]] Hi; simpl in *; try reflexivity; lia.
  - reflexivity.
Defined.

(** ** Which update rules are accepted *)





(** ** Which schedules are accepted *)




(** ** Delay zero: decay after every epoch that does not improve *)


